(** * yfmcp.server: the request-to-result layer of the Yahoo Finance tool server

    A shallow embedding of [src/yfmcp/server.py].  Every tool handler is a
    function in a small trace-and-exception monad: the trace records each
    interaction with the market-data provider (object construction, property
    access, method call) in program order, and the result is either the
    returned [str] or the Python exception that escaped the handler.

    The provider ([yfinance]) and the standard-library functions the handlers
    call ([json.dumps], [DataFrame.to_json], [datetime.fromisoformat],
    [datetime.fromtimestamp]) are not code of this repository: the provider
    is a record of oracles, the library functions are section variables, and
    reference implementations of the pure ones are given for running
    examples. *)

From Stdlib Require Import ZArith List String Ascii Bool Lia Floats DecimalString.
Import ListNotations.

Set Warnings "-register-all".
Open Scope string_scope.
Open Scope Z_scope.

(* ================================================================== *)
(** * Python values, exceptions and results                             *)
(* ================================================================== *)

Module Py.

(** Keys of a [dict]: the hashable scalars. *)
Inductive key :=
| KNone
| KBool (b : bool)
| KInt (z : Z)
| KFloat (f : float)
| KStr (s : string).

(** The values that flow through the handlers: JSON-shaped Python data.
    A [dict] keeps insertion order, so it is an association list. *)
Inductive val :=
| VNone
| VBool (b : bool)
| VInt (z : Z)
| VFloat (f : float)
| VStr (s : string)
| VList (l : list val)
| VDict (d : list (key * val)).

(** The exception classes the handlers can meet.  All of them derive from
    [Exception]; [BaseException]-only signals (KeyboardInterrupt,
    SystemExit) are asynchronous and outside the model. *)
Inductive exn_class :=
| ValueError
| TypeError
| OverflowError
| OSError
| KeyError
| AttributeError
| ProviderError.

(** An exception instance: its class and [str(e)]. *)
Record exn := mk_exn { exn_cls : exn_class; exn_text : string }.

Definition isinstance_ValueError (e : exn) : bool :=
  match exn_cls e with ValueError => true | _ => false end.

(** [except Exception] catches every modelled exception. *)
Definition isinstance_Exception (_ : exn) : bool := true.

Inductive result (A : Type) :=
| Ok (a : A)
| Raise (e : exn).
Arguments Ok {A} a.
Arguments Raise {A} e.

(** ** Strings *)

Definition LF : string := String (ascii_of_nat 10) EmptyString.

Definition lower_ascii (c : ascii) : ascii :=
  let n := nat_of_ascii c in
  if (Nat.leb 65 n && Nat.leb n 90)%bool then ascii_of_nat (n + 32) else c.

(** [str.lower].  Strings are UTF-8 byte sequences; only the ASCII capital
    letters are mapped.  The handlers compare the lowered text with ASCII
    words only.  The non-ASCII code points whose lowercase holds an ASCII
    letter are U+212A (to k) and U+0130 (to i followed by a combining dot);
    none of the words has a k, or an i followed by that mark, so the tests
    on the lowered bytes agree with Python's on the lowered text. *)
Fixpoint lower (s : string) : string :=
  match s with
  | EmptyString => EmptyString
  | String c s' => String (lower_ascii c) (lower s')
  end.

(** [s.endswith(suffix)] *)
Definition endswith (s suffix : string) : bool :=
  let n := String.length s in
  let m := String.length suffix in
  (Nat.leb m n && String.eqb (substring (n - m) m s) suffix)%bool.

(** [s.endswith((a, b, ...))] *)
Definition endswith_any (s : string) (suffixes : list string) : bool :=
  existsb (endswith s) suffixes.

(** [sep.join(parts)] *)
Definition join (sep : string) (parts : list string) : string :=
  String.concat sep parts.

(** [l[:n]], for every integer [n] (a negative stop counts from the end). *)
Definition slice_to {A : Type} (n : Z) (l : list A) : list A :=
  if 0 <=? n then firstn (Z.to_nat n) l
  else firstn (List.length l - Z.to_nat (- n)) l.

(** [d[k] = v] for a [str] key [k]: the value of the entry that holds the
    key is replaced where it stands; a new key is appended. *)
Definition is_str_key (k' : key) (k : string) : bool :=
  match k' with KStr s => String.eqb s k | _ => false end.

Fixpoint setitem (d : list (key * val)) (k : string) (v : val) : list (key * val) :=
  match d with
  | [] => [(KStr k, v)]
  | (k', v') :: d' =>
      if is_str_key k' k then (k', v) :: d' else (k', v') :: setitem d' k v
  end.

(** ** The handler monad: a trace of events and a result *)

Section Monad.
Variable event : Type.

Definition M (A : Type) : Type := list event -> result A * list event.

Definition ret {A} (a : A) : M A := fun t => (Ok a, t).

Definition raise {A} (e : exn) : M A := fun t => (Raise e, t).

Definition bind {A B} (m : M A) (f : A -> M B) : M B :=
  fun t => match m t with
           | (Ok a, t') => f a t'
           | (Raise e, t') => (Raise e, t')
           end.

(** A pure library call: it returns or raises, and leaves no event. *)
Definition lift {A} (r : result A) : M A := fun t => (r, t).

(** An observable step: the event is recorded, then the step's outcome
    (a value or an exception) is delivered. *)
Definition emit {A} (ev : event) (r : result A) : M A :=
  fun t => (r, (t ++ [ev])%list).

(** [try: body except <class> as e: handler(e)] *)
Definition try_except {A} (catches : exn -> bool) (body : M A)
           (handler : exn -> M A) : M A :=
  fun t => match body t with
           | (Ok a, t') => (Ok a, t')
           | (Raise e, t') => if catches e then handler e t' else (Raise e, t')
           end.

(** A handler invocation starts from the empty trace. *)
Definition run {A} (m : M A) : result A * list event := m [].
End Monad.

Arguments ret {event A} a.
Arguments raise {event A} e.
Arguments bind {event A B} m f.
Arguments lift {event A} r.
Arguments emit {event A} ev r.
Arguments try_except {event A} catches body handler.
Arguments run {event A} m.

End Py.
Export Py.

Declare Scope py_scope.
Delimit Scope py_scope with py.
Notation "x <- m ;; k" := (bind m (fun x => k))
  (at level 61, m at next level, right associativity) : py_scope.
Notation "m ;;; k" := (bind m (fun _ => k))
  (at level 61, right associativity) : py_scope.

(* ================================================================== *)
(** * [datetime]                                                        *)
(* ================================================================== *)

(** A [datetime.datetime]: the wall-clock fields and, for an aware value,
    the UTC offset of its fixed-offset zone in microseconds. *)
Record datetime := mk_datetime {
  dt_year : Z;
  dt_month : Z;
  dt_day : Z;
  dt_hour : Z;
  dt_minute : Z;
  dt_second : Z;
  dt_microsecond : Z;
  dt_utcoffset : option Z
}.

Module Calendar.

Definition MINYEAR : Z := 1.
Definition MAXYEAR : Z := 9999.

Definition is_leap (y : Z) : bool :=
  ((y mod 4 =? 0) && (negb (y mod 100 =? 0) || (y mod 400 =? 0)))%bool.

Definition days_in_month (y m : Z) : Z :=
  if m =? 2 then (if is_leap y then 29 else 28)
  else if (m =? 4) || (m =? 6) || (m =? 9) || (m =? 11) then 30
  else 31.

(** Days before January 1st of year [y]. *)
Definition days_before_year (y : Z) : Z :=
  let p := y - 1 in p * 365 + p / 4 - p / 100 + p / 400.

(** Days of year [y] before the first day of month [m]. *)
Definition days_before_month (y m : Z) : Z :=
  fold_left (fun acc k => acc + days_in_month y k)
            (map Z.of_nat (seq 1 (Z.to_nat (m - 1)))) 0.

(** [d.toordinal()]: day 1 is 0001-01-01. *)
Definition toordinal (d : datetime) : Z :=
  days_before_year (dt_year d) + days_before_month (dt_year d) (dt_month d)
  + dt_day d.

Definition valid_date (d : datetime) : bool :=
  (MINYEAR <=? dt_year d) && (dt_year d <=? MAXYEAR) &&
  (1 <=? dt_month d) && (dt_month d <=? 12) &&
  (1 <=? dt_day d) && (dt_day d <=? days_in_month (dt_year d) (dt_month d)).


(** Microseconds of the wall clock since 0001-01-01T00:00:00. *)
Definition wall_micros (d : datetime) : Z :=
  (((toordinal d - 1) * 24 + dt_hour d) * 60 + dt_minute d) * 60 * 1000000
  + dt_second d * 1000000 + dt_microsecond d.


(** The fields in the order Python compares them. *)
Definition fields (d : datetime) : list Z :=
  [dt_year d; dt_month d; dt_day d; dt_hour d; dt_minute d; dt_second d;
   dt_microsecond d].

Fixpoint lex_compare (a b : list Z) : comparison :=
  match a, b with
  | [], [] => Eq
  | [], _ :: _ => Lt
  | _ :: _, [] => Gt
  | x :: a', y :: b' =>
      match x ?= y with
      | Eq => lex_compare a' b'
      | c => c
      end
  end.

(** Three-way comparison of two datetimes ([datetime._cmp]): field by
    field when both are naive, on the UTC instants when both are aware, and
    a [TypeError] when only one of them carries a zone. *)
Definition cmp (a b : datetime) : result comparison :=
  match dt_utcoffset a, dt_utcoffset b with
  | None, None => Ok (lex_compare (fields a) (fields b))
  | Some oa, Some ob =>
      if oa =? ob then Ok (lex_compare (fields a) (fields b))
      else Ok ((wall_micros a - oa) ?= (wall_micros b - ob))
  | _, _ =>
      Raise (mk_exn TypeError
               "can't compare offset-naive and offset-aware datetimes")
  end.

(** [a >= b] *)
Definition ge (a b : datetime) : result bool :=
  match cmp a b with
  | Ok Lt => Ok false
  | Ok _ => Ok true
  | Raise e => Raise e
  end.

(** [a < b] *)
Definition lt (a b : datetime) : result bool :=
  match cmp a b with
  | Ok Lt => Ok true
  | Ok _ => Ok false
  | Raise e => Raise e
  end.

Definition with_date (d : datetime) (y m dd : Z) : datetime :=
  mk_datetime y m dd (dt_hour d) (dt_minute d) (dt_second d)
              (dt_microsecond d) (dt_utcoffset d).

(** [d + timedelta(days=1)]: the next calendar day at the same wall-clock
    time and in the same zone; past 9999-12-31 it is an [OverflowError]. *)
Definition plus_one_day (d : datetime) : result datetime :=
  if dt_day d <? days_in_month (dt_year d) (dt_month d)
  then Ok (with_date d (dt_year d) (dt_month d) (dt_day d + 1))
  else if dt_month d <? 12
  then Ok (with_date d (dt_year d) (dt_month d + 1) 1)
  else if dt_year d <? MAXYEAR
  then Ok (with_date d (dt_year d + 1) 1 1)
  else Raise (mk_exn OverflowError "date value out of range").

End Calendar.

(* ================================================================== *)
(** * Reference implementations of the pure library calls               *)
(* ================================================================== *)

(** The handlers are generic in the library functions they call.  The
    definitions below implement the documented behaviour of the ones whose
    result the properties depend on, so that handlers can be run on concrete
    inputs. *)
Module Ref.
Import Calendar.

Definition digit_of (c : ascii) : option Z :=
  let n := nat_of_ascii c in
  if (Nat.leb 48 n && Nat.leb n 57)%bool then Some (Z.of_nat (n - 48)) else None.

Fixpoint read_digits (n : nat) (s : string) (acc : Z) : option (Z * string) :=
  match n with
  | O => Some (acc, s)
  | S n' =>
      match s with
      | String c s' =>
          match digit_of c with
          | Some d => read_digits n' s' (acc * 10 + d)
          | None => None
          end
      | EmptyString => None
      end
  end.

Definition expect (c : ascii) (s : string) : option string :=
  match s with
  | String c' s' => if Ascii.eqb c c' then Some s' else None
  | EmptyString => None
  end.

Definition opt_bind {A B} (o : option A) (f : A -> option B) : option B :=
  match o with Some a => f a | None => None end.

(** [YYYY-MM-DD] and the rest of the text. *)
Definition read_date (s : string) : option (Z * Z * Z * string) :=
  opt_bind (read_digits 4 s 0) (fun '(y, s1) =>
  opt_bind (expect "-" s1) (fun s2 =>
  opt_bind (read_digits 2 s2 0) (fun '(m, s3) =>
  opt_bind (expect "-" s3) (fun s4 =>
  opt_bind (read_digits 2 s4 0) (fun '(d, s5) =>
  Some (y, m, d, s5)))))).

(** [HH[:MM[:SS]]], to the end of the text. *)
Definition read_time (s : string) : option (Z * Z * Z) :=
  opt_bind (read_digits 2 s 0) (fun '(h, s1) =>
  match s1 with
  | EmptyString => Some (h, 0, 0)
  | _ =>
    opt_bind (expect ":" s1) (fun s2 =>
    opt_bind (read_digits 2 s2 0) (fun '(mi, s3) =>
    match s3 with
    | EmptyString => Some (h, mi, 0)
    | _ =>
      opt_bind (expect ":" s3) (fun s4 =>
      opt_bind (read_digits 2 s4 0) (fun '(sec, s5) =>
      match s5 with
      | EmptyString => Some (h, mi, sec)
      | _ => None
      end))
    end))
  end).

Definition value_error (text : string) : exn := mk_exn ValueError text.

(** The range checks of the [datetime] constructor, in its order. *)
Definition check_fields (d : datetime) : result datetime :=
  if negb ((MINYEAR <=? dt_year d) && (dt_year d <=? MAXYEAR))
  then Raise (value_error "year must be in 1..9999")
  else if negb ((1 <=? dt_month d) && (dt_month d <=? 12))
  then Raise (value_error "month must be in 1..12")
  else if negb ((1 <=? dt_day d) && (dt_day d <=? days_in_month (dt_year d) (dt_month d)))
  then Raise (value_error "day is out of range for month")
  else if negb (dt_hour d <? 24)
  then Raise (value_error "hour must be in 0..23")
  else if negb (dt_minute d <? 60)
  then Raise (value_error "minute must be in 0..59")
  else if negb (dt_second d <? 60)
  then Raise (value_error "second must be in 0..59")
  else Ok d.

(** [datetime.fromisoformat] on the naive forms [YYYY-MM-DD],
    [YYYY-MM-DD*HH], [YYYY-MM-DD*HH:MM] and [YYYY-MM-DD*HH:MM:SS], where [*]
    is any one character: forms every CPython since 3.7 accepts with this
    value.  Other text is rejected here (later interpreters accept more of
    ISO 8601, fractions and UTC offsets). *)
Definition fromisoformat (s : string) : result datetime :=
  let invalid := Raise (value_error ("Invalid isoformat string: '" ++ s ++ "'")) in
  match read_date s with
  | None => invalid
  | Some (y, m, d, rest) =>
      match rest with
      | EmptyString => check_fields (mk_datetime y m d 0 0 0 0 None)
      | String _ rest' =>
          match read_time rest' with
          | None => invalid
          | Some (h, mi, sec) => check_fields (mk_datetime y m d h mi sec 0 None)
          end
      end
  end.

(** ** Local time of an epoch second *)

Definition DI400Y : Z := 146097.
Definition DI100Y : Z := 36524.
Definition DI4Y : Z := 1461.

(** [date.fromordinal]: ordinal to (year, month, day). *)
Definition ord2ymd (ordinal : Z) : Z * Z * Z :=
  let n := ordinal - 1 in
  let n400 := n / DI400Y in
  let n := n mod DI400Y in
  let n100 := n / DI100Y in
  let n := n mod DI100Y in
  let n4 := n / DI4Y in
  let n := n mod DI4Y in
  let n1 := n / 365 in
  let n := n mod 365 in
  let year := n400 * 400 + 1 + n100 * 100 + n4 * 4 + n1 in
  if (n1 =? 4) || (n100 =? 4) then (year - 1, 12, 31)
  else
    let leapyear := (n1 =? 3) && (negb (n4 =? 24) || (n100 =? 3)) in
    let month := Z.shiftr (n + 50) 5 in
    let preceding :=
      days_before_month 1 month + (if (2 <? month) && leapyear then 1 else 0) in
    if n <? preceding
    then
      let month' := month - 1 in
      let preceding' :=
        preceding - (days_in_month 1 month'
                     + (if (month' =? 2) && leapyear then 1 else 0)) in
      (year, month', n - preceding' + 1)
    else (year, month, n - preceding + 1).

(** Ordinal of 1970-01-01. *)
Definition EPOCH_ORDINAL : Z := 719163.

(** The naive local datetime of epoch second [t] in a zone that is
    [offset] seconds east of UTC. *)
Definition localtime (offset t : Z) : result datetime :=
  let w := t + offset in
  let days := w / 86400 in
  let rest := w mod 86400 in
  let '(y, m, d) := ord2ymd (EPOCH_ORDINAL + days) in
  if (MINYEAR <=? y) && (y <=? MAXYEAR)
  then Ok (mk_datetime y m d (rest / 3600) (rest mod 3600 / 60) (rest mod 60) 0 None)
  else Raise (value_error "year is out of range").

Definition not_an_integer (type_name : string) : exn :=
  mk_exn TypeError ("'" ++ type_name ++ "' object cannot be interpreted as an integer").

(** [datetime.fromtimestamp(value)] in a fixed-offset local zone.  An
    [int] or [bool] is a count of seconds; a [float] is first turned into
    whole seconds by the interpreter ([float_seconds]: half-even rounding to
    the microsecond, an error for NaN and the infinities); anything else is a
    [TypeError] that names the type of the value. *)
Definition fromtimestamp (offset : Z) (float_seconds : float -> result Z)
           (value : val) : result datetime :=
  match value with
  | VInt t => localtime offset t
  | VBool b => localtime offset (if b then 1 else 0)
  | VFloat f =>
      match float_seconds f with
      | Ok t => localtime offset t
      | Raise e => Raise e
      end
  | VNone => Raise (not_an_integer "NoneType")
  | VStr _ => Raise (not_an_integer "str")
  | VList _ => Raise (not_an_integer "list")
  | VDict _ => Raise (not_an_integer "dict")
  end.

Definition digit_char (d : Z) : ascii := ascii_of_nat (48 + Z.to_nat d).

Definition pad2 (n : Z) : string :=
  String (digit_char (n / 10 mod 10)) (String (digit_char (n mod 10)) EmptyString).

Definition pad4 (n : Z) : string := pad2 (n / 100) ++ pad2 (n mod 100).

(** [d.strftime("%Y-%m-%d %H:%M:%S")].  Any other format is outside this
    reference.  (Years below 1000 are zero-padded here; the C library of
    some platforms prints them unpadded.) *)
Definition strftime (d : datetime) (format : string) : result string :=
  if String.eqb format "%Y-%m-%d %H:%M:%S"
  then Ok (pad4 (dt_year d) ++ "-" ++ pad2 (dt_month d) ++ "-" ++ pad2 (dt_day d)
           ++ " " ++ pad2 (dt_hour d) ++ ":" ++ pad2 (dt_minute d) ++ ":"
           ++ pad2 (dt_second d))
  else Raise (value_error "unsupported format").

End Ref.

(* ================================================================== *)
(** * The market-data provider                                          *)
(* ================================================================== *)

(** A row of a [pandas.DataFrame]: column name to cell. *)
Definition Row : Type := list (string * val).
Definition DataFrame : Type := list Row.

(** [df.iloc[:n]] *)
Definition iloc_to (n : Z) (df : DataFrame) : DataFrame := slice_to n df.

(** One bar of a price history. *)
Record Bar := mk_bar {
  Open : float;
  High : float;
  Low : float;
  Close : float;
  Volume : Z
}.

(** What a [yf.Search] object holds after its query. *)
Record SearchResult := mk_search {
  search_all : val;
  search_quotes : val;
  search_news : val
}.

(** The provider as the handlers use it: each field is one interaction,
    which returns or raises.  [Ticker], [Sector] and [Industry] build the
    object; [Search] builds it and runs the query; the other fields read a
    property of the object built from the same argument ([Sector_top_etfs]
    and [Sector_top_mutual_funds] yield the items of the mapping, in its
    order) or call [ticker.history(start, end, interval, rounding)].  A table
    that the provider does not have is [None]. *)
Record Provider := mk_provider {
  Ticker : string -> result unit;
  Ticker_info : string -> result (list (key * val));
  Ticker_history :
    string -> datetime -> datetime -> string -> bool -> result (list Bar);
  Search : string -> result SearchResult;
  Sector : string -> result unit;
  Sector_top_etfs : string -> result (list (string * string));
  Sector_top_mutual_funds : string -> result (list (string * string));
  Sector_top_companies : string -> result (option DataFrame);
  Industry : string -> result unit;
  Industry_top_growth_companies : string -> result (option DataFrame);
  Industry_top_performing_companies : string -> result (option DataFrame)
}.

(** The observable steps of a handler, in the words of the source. *)
Inductive event :=
| ETicker (symbol : string)
| ETickerInfo (symbol : string)
| ETickerHistory (symbol : string) (start end_ : datetime)
                 (interval : string) (rounding : bool)
| ESearch (query : string)
| ESector (sector : string)
| ESectorTopEtfs (sector : string)
| ESectorTopMutualFunds (sector : string)
| ESectorTopCompanies (sector : string)
| EIndustry (industry_name : string)
| EIndustryTopGrowthCompanies (industry_name : string)
| EIndustryTopPerformingCompanies (industry_name : string)
| ELoggerError (key : string) (value : val) (e : exn).

(** Whether an event is an interaction with the provider. *)
Definition is_provider_event (ev : event) : bool :=
  match ev with
  | ELoggerError _ _ _ => false
  | _ => true
  end.

(* ================================================================== *)
(** * The tool handlers                                                 *)
(* ================================================================== *)

Definition error_object (message : string) : val :=
  VDict [(KStr "error", VStr message)].

Definition DATE_SUFFIXES : list string :=
  ["date"; "start"; "end"; "timestamp"; "time"; "quarter"].

Definition TOP_N_MESSAGE : string := "top_n must be greater than 0".

Section Server.
Local Open Scope py_scope.

(** [json.dumps(obj, ensure_ascii=...)] *)
Variable json_dumps : bool -> val -> string.
(** [df.to_json(orient="records")] *)
Variable to_json_records : DataFrame -> string.
(** [datetime.fromisoformat], [datetime.fromtimestamp], [d.strftime] *)
Variable fromisoformat : string -> result datetime.
Variable fromtimestamp : val -> result datetime.
Variable strftime : datetime -> string -> result string.
(** [yfinance.const.SECTOR_INDUSTY_MAPPING], each sector's industries in
    the order the loop meets them. *)
Variable SECTOR_INDUSTY_MAPPING : string -> option (list string).

Variable yf : Provider.

Let M := M event.

(** ** get_ticker_info *)

(** One iteration of the loop over [info.items()]. *)
Definition humanize_item (info : list (key * val)) (item : key * val)
  : M (list (key * val)) :=
  let '(key, value) := item in
  match key with
  | KStr k =>
      if endswith_any (lower k) DATE_SUFFIXES
      then
        try_except isinstance_Exception
          (dt <- lift (fromtimestamp value) ;;
           text <- lift (strftime dt "%Y-%m-%d %H:%M:%S") ;;
           ret (setitem info k (VStr text)))
          (fun e => emit (ELoggerError k value e) (Ok info))
      else ret info
  | _ => ret info
  end.

(** The loop: the items are those of the mapping as the provider gave it
    (an assignment to an existing key neither reorders nor resizes a
    [dict], and each key is met once). *)
Fixpoint humanize_items (items : list (key * val)) (info : list (key * val))
  : M (list (key * val)) :=
  match items with
  | [] => ret info
  | item :: items' =>
      info' <- humanize_item info item ;;
      humanize_items items' info'
  end.

Definition get_ticker_info (symbol : string) : M string :=
  _ <- emit (ETicker symbol) (Ticker yf symbol) ;;
  info <- emit (ETickerInfo symbol) (Ticker_info yf symbol) ;;
  info' <- humanize_items info info ;;
  ret (json_dumps false (VDict info')).

(** ** search *)

Definition search (query search_type : string) : M string :=
  s <- emit (ESearch query) (Search yf query) ;;
  let selector := lower search_type in
  if String.eqb selector "all" then ret (json_dumps false (search_all s))
  else if String.eqb selector "quotes" then ret (json_dumps false (search_quotes s))
  else if String.eqb selector "news" then ret (json_dumps false (search_news s))
  else ret "Invalid output_type. Use 'all', 'quotes', or 'news'.".

(** ** The top-entity resolvers *)

Definition entity_line (item : string * string) : string :=
  fst item ++ ": " ++ snd item.

Definition get_top_etfs (sector : string) (top_n : Z) : M string :=
  if top_n <? 1 then ret TOP_N_MESSAGE
  else
    _ <- emit (ESector sector) (Sector yf sector) ;;
    items <- emit (ESectorTopEtfs sector) (Sector_top_etfs yf sector) ;;
    let result := map entity_line items in
    ret (join LF (slice_to top_n result)).

Definition get_top_mutual_funds (sector : string) (top_n : Z) : M string :=
  if top_n <? 1 then ret TOP_N_MESSAGE
  else
    _ <- emit (ESector sector) (Sector yf sector) ;;
    items <- emit (ESectorTopMutualFunds sector) (Sector_top_mutual_funds yf sector) ;;
    ret (join LF (map entity_line items)).

Definition get_top_companies (sector : string) (top_n : Z) : M string :=
  if top_n <? 1 then ret TOP_N_MESSAGE
  else
    r <- try_except isinstance_Exception
           (_ <- emit (ESector sector) (Sector yf sector) ;;
            df <- emit (ESectorTopCompanies sector) (Sector_top_companies yf sector) ;;
            ret (inr df))
           (fun e =>
              ret (inl (json_dumps true
                          (error_object
                             ("Failed to get top companies for sector '"
                              ++ sector ++ "': " ++ exn_text e))))) ;;
    match r with
    | inl error => ret error
    | inr None =>
        ret (json_dumps true
               (error_object ("No top companies available for " ++ sector ++ " sector.")))
    | inr (Some df) => ret (to_json_records (iloc_to top_n df))
    end.

(** [SECTOR_INDUSTY_MAPPING[sector]] *)
Definition industries_of (sector : string) : M (list string) :=
  match SECTOR_INDUSTY_MAPPING sector with
  | Some industries => ret industries
  | None => raise (mk_exn KeyError ("'" ++ sector ++ "'"))
  end.

Definition industry_entry (industry_name data_key : string) (top_n : Z)
           (df : DataFrame) : val :=
  VDict [(KStr "industry", VStr industry_name);
         (KStr data_key, VStr (to_json_records (iloc_to top_n df)))].

(** The loop of the two grouped resolvers: [table] is the property read
    from each industry, [ev] its event, [data_key] the name of the entry
    that holds the rows. *)
Fixpoint industry_loop (table : string -> result (option DataFrame))
         (ev : string -> event) (data_key : string) (top_n : Z)
         (industries : list string) (results : list val) : M (list val) :=
  match industries with
  | [] => ret results
  | industry_name :: rest =>
      _ <- emit (EIndustry industry_name) (Industry yf industry_name) ;;
      df <- emit (ev industry_name) (table industry_name) ;;
      match df with
      | None => industry_loop table ev data_key top_n rest results
      | Some df =>
          industry_loop table ev data_key top_n rest
            (results ++ [industry_entry industry_name data_key top_n df])%list
      end
  end.

Definition get_top_growth_companies (sector : string) (top_n : Z) : M string :=
  if top_n <? 1 then ret TOP_N_MESSAGE
  else
    industries <- industries_of sector ;;
    results <- industry_loop (Industry_top_growth_companies yf)
                 EIndustryTopGrowthCompanies "top_growth_companies"
                 top_n industries [] ;;
    ret (json_dumps false (VList results)).

Definition get_top_performing_companies (sector : string) (top_n : Z) : M string :=
  if top_n <? 1 then ret TOP_N_MESSAGE
  else
    industries <- industries_of sector ;;
    results <- industry_loop (Industry_top_performing_companies yf)
                 EIndustryTopPerformingCompanies "top_performing_companies"
                 top_n industries [] ;;
    ret (json_dumps false (VList results)).

Definition get_top (sector top_type : string) (top_n : Z) : M string :=
  if String.eqb top_type "top_etfs" then get_top_etfs sector top_n
  else if String.eqb top_type "top_mutual_funds" then get_top_mutual_funds sector top_n
  else if String.eqb top_type "top_companies" then get_top_companies sector top_n
  else if String.eqb top_type "top_growth_companies"
  then get_top_growth_companies sector top_n
  else if String.eqb top_type "top_performing_companies"
  then get_top_performing_companies sector top_n
  else ret "Invalid top_type".

(** ** calculate_profit_loss *)

Definition NO_DATA_MESSAGE : string :=
  "No historical data available for the given symbol and date range. "
  ++ "Please verify the symbol and that the dates fall on trading days.".

(** The object built from a non-empty history. *)
Definition profit_loss_object (symbol start_date end_date : string)
           (first_bar last_bar : Bar) : val :=
  let start_price := Close first_bar in
  let end_price := Close last_bar in
  let profit_loss := PrimFloat.sub end_price start_price in
  let percent_change :=
    if negb (PrimFloat.eqb start_price 0)
    then VFloat (PrimFloat.mul (PrimFloat.div profit_loss start_price) 100)
    else VNone in
  VDict [(KStr "symbol", VStr symbol);
         (KStr "start_date", VStr start_date);
         (KStr "end_date", VStr end_date);
         (KStr "start_price", VFloat start_price);
         (KStr "end_price", VFloat end_price);
         (KStr "profit_loss", VFloat profit_loss);
         (KStr "percent_change", percent_change)].

Definition calculate_profit_loss (symbol start_date end_date : string) : M string :=
  parsed <- try_except isinstance_ValueError
              (start_dt <- lift (fromisoformat start_date) ;;
               end_dt <- lift (fromisoformat end_date) ;;
               ret (inr (start_dt, end_dt)))
              (fun exc =>
                 ret (inl (json_dumps true
                             (error_object ("Invalid date format: " ++ exn_text exc))))) ;;
  match parsed with
  | inl error => ret error
  | inr (start_dt, end_dt) =>
      not_earlier <- lift (Calendar.ge start_dt end_dt) ;;
      if (not_earlier : bool)
      then ret (json_dumps true (error_object "start_date must be earlier than end_date"))
      else
        _ <- emit (ETicker symbol) (Ticker yf symbol) ;;
        end_bound <- lift (Calendar.plus_one_day end_dt) ;;
        history <- emit (ETickerHistory symbol start_dt end_bound "1d" true)
                        (Ticker_history yf symbol start_dt end_bound "1d" true) ;;
        match history with
        | [] => ret (json_dumps true (error_object NO_DATA_MESSAGE))
        | first_bar :: _ =>
            ret (json_dumps true
                   (profit_loss_object symbol start_date end_date
                      first_bar (last history first_bar)))
        end
  end.

End Server.

(* ================================================================== *)
(** * A reference serializer                                            *)
(* ================================================================== *)

(** [json.dumps] with its default separators, for running the handlers on
    concrete data.  The shortest-repr printing of a [float] is the
    interpreter's and is taken as [float_repr]. *)
Module Json.

Definition DQ : string := String (ascii_of_nat 34) EmptyString.
Definition BACKSLASH : string := String (ascii_of_nat 92) EmptyString.

Definition hex_digit (d : Z) : ascii :=
  if d <? 10 then ascii_of_nat (48 + Z.to_nat d) else ascii_of_nat (87 + Z.to_nat d).

(** [\uXXXX] for a 16-bit unit. *)
Definition u_escape (unit : Z) : string :=
  BACKSLASH ++ "u"
  ++ String (hex_digit (Z.shiftr unit 12 mod 16))
       (String (hex_digit (Z.shiftr unit 8 mod 16))
          (String (hex_digit (Z.shiftr unit 4 mod 16))
             (String (hex_digit (unit mod 16)) EmptyString))).

(** A code point outside ASCII, as [ensure_ascii=True] writes it. *)
Definition escape_code_point (cp : Z) : string :=
  if cp <? 65536 then u_escape cp
  else
    let v := cp - 65536 in
    u_escape (Z.lor 55296 (Z.shiftr v 10)) ++ u_escape (Z.lor 56320 (Z.land v 1023)).

(** The escapes both modes apply to an ASCII character. *)
Definition escape_ascii (c : ascii) : string :=
  let n := Z.of_nat (nat_of_ascii c) in
  if n =? 34 then BACKSLASH ++ DQ
  else if n =? 92 then BACKSLASH ++ BACKSLASH
  else if n =? 10 then BACKSLASH ++ "n"
  else if n =? 13 then BACKSLASH ++ "r"
  else if n =? 9 then BACKSLASH ++ "t"
  else if n =? 8 then BACKSLASH ++ "b"
  else if n =? 12 then BACKSLASH ++ "f"
  else if n <? 32 then u_escape n
  else String c EmptyString.

Definition byte (c : ascii) : Z := Z.of_nat (nat_of_ascii c).
Definition cont (c : ascii) : Z := Z.land (byte c) 63.

(** The body of a JSON string for UTF-8 text [s]. *)
Fixpoint escape (ensure_ascii : bool) (s : string) : string :=
  match s with
  | EmptyString => EmptyString
  | String c s1 =>
      if byte c <? 128 then escape_ascii c ++ escape ensure_ascii s1
      else if negb ensure_ascii then String c (escape ensure_ascii s1)
      else
        match s1 with
        | String c1 s2 =>
            if byte c <? 224
            then escape_code_point (Z.shiftl (Z.land (byte c) 31) 6 + cont c1)
                 ++ escape ensure_ascii s2
            else
              match s2 with
              | String c2 s3 =>
                  if byte c <? 240
                  then escape_code_point
                         (Z.shiftl (Z.land (byte c) 15) 12
                          + Z.shiftl (cont c1) 6 + cont c2)
                       ++ escape ensure_ascii s3
                  else
                    match s3 with
                    | String c3 s4 =>
                        escape_code_point
                          (Z.shiftl (Z.land (byte c) 7) 18
                           + Z.shiftl (cont c1) 12 + Z.shiftl (cont c2) 6 + cont c3)
                        ++ escape ensure_ascii s4
                    | EmptyString => EmptyString
                    end
              | EmptyString => EmptyString
              end
        | EmptyString => EmptyString
        end
  end.

Definition quote (ensure_ascii : bool) (s : string) : string :=
  DQ ++ escape ensure_ascii s ++ DQ.

Definition int_repr (z : Z) : string :=
  DecimalString.NilZero.string_of_int (Z.to_int z).

Section Dumps.
Variable float_repr : float -> string.
Variable item_separator key_separator : string.
Variable ensure_ascii : bool.

Definition float_text (f : float) : string :=
  if PrimFloat.is_nan f then "NaN"
  else if PrimFloat.is_infinity f
  then (if PrimFloat.ltb f 0 then "-Infinity" else "Infinity")
  else float_repr f.

(** A key is written as a string. *)
Definition key_text (k : key) : string :=
  match k with
  | KStr s => quote ensure_ascii s
  | KInt z => DQ ++ int_repr z ++ DQ
  | KBool b => DQ ++ (if b then "true" else "false") ++ DQ
  | KNone => DQ ++ "null" ++ DQ
  | KFloat f => DQ ++ float_text f ++ DQ
  end.

Fixpoint dumps (v : val) : string :=
  match v with
  | VNone => "null"
  | VBool b => if b then "true" else "false"
  | VInt z => int_repr z
  | VFloat f => float_text f
  | VStr s => quote ensure_ascii s
  | VList l => "[" ++ join item_separator (map dumps l) ++ "]"
  | VDict d =>
      "{" ++ join item_separator
               (map (fun kv => key_text (fst kv) ++ key_separator ++ dumps (snd kv)) d)
      ++ "}"
  end.
End Dumps.

(** [json.dumps(obj, ensure_ascii=b)] *)
Definition json_dumps (float_repr : float -> string) (ensure_ascii : bool)
           (v : val) : string :=
  dumps float_repr ", " ": " ensure_ascii v.

(** [repr] of a float that holds a whole number of magnitude below 10^16:
    its digits and [.0].  Other floats are outside this reference. *)
Definition whole_float_repr (f : float) : string :=
  match Prim2SF f with
  | S754_zero s => if s then "-0.0" else "0.0"
  | S754_finite s m e =>
      let whole :=
        if 0 <=? e then Some (Z.pos m * 2 ^ e)
        else if Z.pos m mod 2 ^ (- e) =? 0 then Some (Z.pos m / 2 ^ (- e))
        else None in
      match whole with
      | Some z =>
          if z <? 10 ^ 16
          then (if s then "-" else "") ++ int_repr z ++ ".0"
          else "<float>"
      | None => "<float>"
      end
  | _ => "<float>"
  end.

End Json.

(* ================================================================== *)
(** * Sample data                                                       *)
(* ================================================================== *)

Module Demo.

Definition json_dumps : bool -> val -> string :=
  Json.json_dumps Json.whole_float_repr.

(** [df.to_json(orient="records")]: the rows as objects, with compact
    separators.  (pandas also escapes forward slashes; the sample tables
    hold none.) *)
Definition to_json_records (df : DataFrame) : string :=
  Json.dumps Json.whole_float_repr "," ":" true
    (VList (map (fun row : Row => VDict (map (fun c => (KStr (fst c), snd c)) row)) df)).

(** Local time is UTC, and float timestamps are whole seconds. *)
Definition fromtimestamp : val -> result datetime :=
  Ref.fromtimestamp 0 (fun f =>
    match Prim2SF f with
    | S754_zero _ => Ok 0
    | S754_finite s m e =>
        if 0 <=? e then Ok ((if s then -1 else 1) * Z.pos m * 2 ^ e)
        else Ok ((if s then -1 else 1) * (Z.pos m / 2 ^ (- e)))
    | S754_nan => Raise (mk_exn ValueError "Invalid value NaN (not a number)")
    | S754_infinity _ =>
        Raise (mk_exn OverflowError "cannot convert float infinity to integer")
    end).

Definition provider_down : exn := mk_exn ProviderError "HTTP Error 404: ".

Definition company (symbol name : string) (weight : Z) : Row :=
  [("symbol", VStr symbol); ("name", VStr name); ("market weight", VInt weight)].

Definition funds : list (string * string) :=
  [("VITAX", "Vanguard Information Technology Index Fund");
   ("FSPTX", "Fidelity Select Technology Portfolio")].

Definition etfs : list (string * string) :=
  [("XLK", "Technology Select Sector SPDR Fund");
   ("VGT", "Vanguard Information Technology ETF");
   ("IYW", "iShares U.S. Technology ETF")].

Definition companies : DataFrame :=
  [company "NVDA" "NVIDIA Corporation" 20; company "MSFT" "Microsoft Corporation" 18;
   company "AAPL" "Apple Inc." 17].

Definition mapping (sector : string) : option (list string) :=
  if String.eqb sector "technology"
  then Some ["software-infrastructure"; "semiconductors"; "solar"; "consumer-electronics"]
  else None.

Definition bar (close : float) : Bar := mk_bar close close close close 1000.

Definition info : list (key * val) :=
  [(KStr "symbol", VStr "ACME");
   (KStr "exDividendDate", VInt 1700000000);
   (KInt 7, VInt 1700000000);
   (KStr "lastFiscalYearEnd", VStr "n/a");
   (KStr "regularMarketTime", VInt 0);
   (KStr "marketCap", VInt 1700000000)].

(** A provider that answers every request. *)
Definition yf : Provider := {|
  Ticker := fun _ => Ok tt;
  Ticker_info := fun _ => Ok info;
  Ticker_history := fun symbol _ _ _ _ =>
    if String.eqb symbol "ACME" then Ok [bar 10; bar 10; bar 12]
    else if String.eqb symbol "ZERO" then Ok [bar 0; bar 5]
    else Ok [];
  Search := fun _ =>
    Ok (mk_search (VDict [(KStr "quotes", VList [VStr "AAPL"]); (KStr "news", VList [])])
                  (VList [VStr "AAPL"]) (VList []));
  Sector := fun _ => Ok tt;
  Sector_top_etfs := fun _ => Ok etfs;
  Sector_top_mutual_funds := fun _ => Ok funds;
  Sector_top_companies := fun _ => Ok (Some companies);
  Industry := fun _ => Ok tt;
  Industry_top_growth_companies := fun industry_name =>
    if String.eqb industry_name "semiconductors" then Ok (Some companies)
    else if String.eqb industry_name "solar" then Raise provider_down
    else Ok None;
  Industry_top_performing_companies := fun industry_name =>
    if String.eqb industry_name "semiconductors" then Ok (Some companies)
    else if String.eqb industry_name "solar" then Raise provider_down
    else Ok None
|}.

(** A provider whose every request fails. *)
Definition down : Provider := {|
  Ticker := fun _ => Raise provider_down;
  Ticker_info := fun _ => Raise provider_down;
  Ticker_history := fun _ _ _ _ _ => Raise provider_down;
  Search := fun _ => Raise provider_down;
  Sector := fun _ => Raise provider_down;
  Sector_top_etfs := fun _ => Raise provider_down;
  Sector_top_mutual_funds := fun _ => Raise provider_down;
  Sector_top_companies := fun _ => Raise provider_down;
  Industry := fun _ => Raise provider_down;
  Industry_top_growth_companies := fun _ => Raise provider_down;
  Industry_top_performing_companies := fun _ => Raise provider_down
|}.

(** A provider that has no table for any sector. *)
Definition no_tables : Provider := {|
  Ticker := Ticker yf;
  Ticker_info := Ticker_info yf;
  Ticker_history := Ticker_history yf;
  Search := Search yf;
  Sector := Sector yf;
  Sector_top_etfs := Sector_top_etfs yf;
  Sector_top_mutual_funds := Sector_top_mutual_funds yf;
  Sector_top_companies := fun _ => Ok None;
  Industry := Industry yf;
  Industry_top_growth_companies := fun _ => Ok None;
  Industry_top_performing_companies := fun _ => Ok None
|}.

End Demo.

(* ================================================================== *)
(** * Outcomes of a handler                                             *)
(* ================================================================== *)

(** What a handler invocation hands back, and what it did on the way. *)
Definition outcome {A} (m : M event A) : result A := fst (run m).
Definition trace {A} (m : M event A) : list event := snd (run m).

(** The provider interactions among the events of a run. *)
Definition provider_calls {A} (m : M event A) : list event :=
  filter is_provider_event (trace m).

(** ** Vocabulary of the timestamp pass *)

(** The name test of [get_ticker_info]. *)
Definition datelike (name : string) : bool :=
  endswith_any (lower name) DATE_SUFFIXES.

Section Humanized.
Variable fromtimestamp : val -> result datetime.
Variable strftime : datetime -> string -> result string.

(** The value read as epoch seconds and written as YYYY-MM-DD HH:MM:SS. *)
Definition render (value : val) : result string :=
  match fromtimestamp value with
  | Ok dt => strftime dt "%Y-%m-%d %H:%M:%S"
  | Raise e => Raise e
  end.


(** The entry the pass leaves for an entry of the mapping. *)
Definition humanize_entry (item : key * val) : key * val :=
  match fst item with
  | KStr name =>
      if datelike name
      then match render (snd item) with
           | Ok text => (KStr name, VStr text)
           | Raise _ => item
           end
      else item
  | _ => item
  end.
End Humanized.

(** The diagnostic the pass logs for an entry: one [logger.error] when the
    entry has a date-like [str] key and its conversion raises, none
    otherwise. *)
Definition conversion_log (fromtimestamp : val -> result datetime)
           (strftime : datetime -> string -> result string)
           (item : key * val) : list event :=
  match fst item with
  | KStr name =>
      if datelike name
      then match render fromtimestamp strftime (snd item) with
           | Ok _ => []
           | Raise e => [ELoggerError name (snd item) e]
           end
      else []
  | _ => []
  end.


(** The values of [top_type] that [get_top] knows. *)
Definition TOP_TYPES : list string :=
  ["top_etfs"; "top_mutual_funds"; "top_companies"; "top_growth_companies";
   "top_performing_companies"].

(** ** More sample data *)

Module Samples.

(** A provider whose history request fails with a [ValueError]. *)
Definition history_fails : Provider :=
  mk_provider (Ticker Demo.yf) (Ticker_info Demo.yf)
    (fun _ _ _ _ _ => Raise (mk_exn ValueError "no timezone found"))
    (Search Demo.yf) (Sector Demo.yf) (Sector_top_etfs Demo.yf)
    (Sector_top_mutual_funds Demo.yf) (Sector_top_companies Demo.yf)
    (Industry Demo.yf) (Industry_top_growth_companies Demo.yf)
    (Industry_top_performing_companies Demo.yf).

(** A provider whose series has two bars with the closes 10 and 12. *)
Definition two_bars : Provider :=
  mk_provider (Ticker Demo.yf) (Ticker_info Demo.yf)
    (fun _ _ _ _ _ => Ok [mk_bar 9 11 8 10 5; mk_bar 11 13 10 12 7])
    (Search Demo.yf) (Sector Demo.yf) (Sector_top_etfs Demo.yf)
    (Sector_top_mutual_funds Demo.yf) (Sector_top_companies Demo.yf)
    (Industry Demo.yf) (Industry_top_growth_companies Demo.yf)
    (Industry_top_performing_companies Demo.yf).

(** A provider whose info has no date-like name. *)
Definition plain_info : list (key * val) :=
  [(KStr "symbol", VStr "ACME"); (KStr "marketCap", VInt 1700000000);
   (KInt 7, VInt 1700000000)].

Definition plain : Provider :=
  mk_provider (Ticker Demo.yf) (fun _ => Ok plain_info) (Ticker_history Demo.yf)
    (Search Demo.yf) (Sector Demo.yf) (Sector_top_etfs Demo.yf)
    (Sector_top_mutual_funds Demo.yf) (Sector_top_companies Demo.yf)
    (Industry Demo.yf) (Industry_top_growth_companies Demo.yf)
    (Industry_top_performing_companies Demo.yf).

(** A provider whose info holds small numbers under two unusual names. *)
Definition endings_info : list (key * val) :=
  [(KStr "dividEND", VInt 5); (KStr "trending", VInt 5)].

Definition endings : Provider :=
  mk_provider (Ticker Demo.yf) (fun _ => Ok endings_info) (Ticker_history Demo.yf)
    (Search Demo.yf) (Sector Demo.yf) (Sector_top_etfs Demo.yf)
    (Sector_top_mutual_funds Demo.yf) (Sector_top_companies Demo.yf)
    (Industry Demo.yf) (Industry_top_growth_companies Demo.yf)
    (Industry_top_performing_companies Demo.yf).

(** A provider that answers every request with an empty listing. *)
Definition nothing_listed : Provider :=
  mk_provider (Ticker Demo.yf) (Ticker_info Demo.yf) (Ticker_history Demo.yf)
    (Search Demo.yf) (Sector Demo.yf) (fun _ => Ok []) (fun _ => Ok [])
    (fun _ => Ok (Some [])) (Industry Demo.yf) (fun _ => Ok (Some []))
    (fun _ => Ok (Some [])).

(** The reference parser, extended with one text that carries a UTC
    offset. *)
Definition with_offset (s : string) : result datetime :=
  if String.eqb s "2024-01-05T00:00+00:00"
  then Ok (mk_datetime 2024 1 5 0 0 0 0 (Some 0))
  else Ref.fromisoformat s.

(** A parser that refuses its argument with a [TypeError]. *)
Definition not_a_string (_ : string) : result datetime :=
  Raise (mk_exn TypeError "fromisoformat: argument must be str").

End Samples.

(** ** Vocabulary of the grouped resolvers *)

Section Grouped.
Variable to_json_records : DataFrame -> string.
Variable yf : Provider.
(** The table read from each industry, its event and the key of its rows. *)
Variable table : string -> result (option DataFrame).
Variable ev : string -> event.
Variable data_key : string.
Variable top_n : Z.

(** The two interactions of one industry. *)
Definition industry_events (industry_name : string) : list event :=
  [EIndustry industry_name; ev industry_name].

(** Both interactions of the industry return. *)
Definition answered (industry_name : string) : Prop :=
  Industry yf industry_name = Ok tt /\ exists r, table industry_name = Ok r.

(** One of the two interactions of the industry raises [e]. *)
Definition fails_with (industry_name : string) (e : exn) : Prop :=
  Industry yf industry_name = Raise e \/
  (Industry yf industry_name = Ok tt /\ table industry_name = Raise e).

(** What an industry adds to the result: one entry when it has a table. *)
Definition entries (industry_name : string) : list val :=
  match table industry_name with
  | Ok (Some df) => [industry_entry to_json_records industry_name data_key top_n df]
  | _ => []
  end.

(** The behaviour of a grouped resolver, as a function of the industries
    listed for the sector. *)
Definition grouped_contract (json_dumps : bool -> val -> string)
           (resolver : list string -> M event string) : Prop :=
  (* a failing industry: the exception escapes, later industries are not asked *)
  (forall before industry_name after e,
      Forall answered before ->
      fails_with industry_name e ->
      outcome (resolver (before ++ industry_name :: after)%list) = Raise e /\
      exists last_calls,
        trace (resolver (before ++ industry_name :: after)%list)
        = (flat_map industry_events before ++ last_calls)%list /\
        incl last_calls (industry_events industry_name)) /\
  (* no failure: every industry is asked, in order, and those with a table
     contribute their first rows *)
  (forall industries,
      Forall answered industries ->
      outcome (resolver industries)
      = Ok (json_dumps false (VList (flat_map entries industries))) /\
      trace (resolver industries) = flat_map industry_events industries) /\
  (* an industry without a table leaves the result as if it were not listed *)
  (forall before industry_name after,
      Forall answered (before ++ industry_name :: after)%list ->
      table industry_name = Ok None ->
      outcome (resolver (before ++ industry_name :: after)%list)
      = outcome (resolver (before ++ after)%list)).
End Grouped.

(* ================================================================== *)
(** * Properties                                                        *)
(* ================================================================== *)

Ltac unfold_monad :=
  unfold outcome, trace, provider_calls, run, bind, emit, ret, raise, lift,
    try_except in *.

(** ** Slices *)

Lemma slice_to_firstn {A} (n : Z) (l : list A) :
  0 <= n -> slice_to n l = firstn (Z.to_nat n) l.
Proof.
  intros Hn. unfold slice_to.
  destruct (0 <=? n) eqn:E; [reflexivity | apply Z.leb_gt in E; lia].
Qed.

Lemma slice_to_short {A} (n : Z) (l : list A) :
  Z.of_nat (List.length l) <= n -> slice_to n l = l.
Proof.
  intros Hn. rewrite slice_to_firstn by lia.
  apply firstn_all2. lia.
Qed.

Lemma slice_to_length {A} (n : Z) (l : list A) :
  1 <= n -> n <= Z.of_nat (List.length l) ->
  Z.of_nat (List.length (slice_to n l)) = n.
Proof.
  intros H1 H2. rewrite slice_to_firstn by lia.
  rewrite length_firstn. lia.
Qed.

Lemma slice_to_prefix {A} (n : Z) (l : list A) :
  0 <= n -> exists rest, l = (slice_to n l ++ rest)%list.
Proof.
  intros Hn. exists (skipn (Z.to_nat n) l).
  rewrite slice_to_firstn by assumption.
  symmetry. apply firstn_skipn.
Qed.

(** ** The count check of the top-entity resolvers *)

Section TopN.
Variable json_dumps : bool -> val -> string.
Variable to_json_records : DataFrame -> string.
Variable SECTOR_INDUSTY_MAPPING : string -> option (list string).
Variable yf : Provider.

Local Abbreviation top_companies := (get_top_companies json_dumps to_json_records yf).
Local Abbreviation top_growth :=
  (get_top_growth_companies json_dumps to_json_records SECTOR_INDUSTY_MAPPING yf).
Local Abbreviation top_performing :=
  (get_top_performing_companies json_dumps to_json_records SECTOR_INDUSTY_MAPPING yf).
Local Abbreviation top := (get_top json_dumps to_json_records SECTOR_INDUSTY_MAPPING yf).

Lemma rejected_run (sector : string) (top_n : Z) :
  top_n <= 0 ->
  run (get_top_etfs yf sector top_n) = (Ok TOP_N_MESSAGE, []) /\
  run (get_top_mutual_funds yf sector top_n) = (Ok TOP_N_MESSAGE, []) /\
  run (top_companies sector top_n) = (Ok TOP_N_MESSAGE, []) /\
  run (top_growth sector top_n) = (Ok TOP_N_MESSAGE, []) /\
  run (top_performing sector top_n) = (Ok TOP_N_MESSAGE, []).
Proof.
  intros Hn.
  assert (E : (top_n <? 1) = true) by (apply Z.ltb_lt; lia).
  unfold get_top_etfs, get_top_mutual_funds, get_top_companies,
    get_top_growth_companies, get_top_performing_companies.
  rewrite E. repeat split.
Qed.

(** C7.  For every sector and every requested count [top_n <= 0], each of
    the five top-entity resolvers, called directly or through the [get_top]
    dispatcher, returns exactly the string "top_n must be greater than 0":
    a returned value, not a raised exception. *)
Theorem top_n_not_positive_message (sector : string) (top_n : Z) :
  top_n <= 0 ->
  let message := Ok "top_n must be greater than 0" in
  outcome (get_top_etfs yf sector top_n) = message /\
  outcome (get_top_mutual_funds yf sector top_n) = message /\
  outcome (top_companies sector top_n) = message /\
  outcome (top_growth sector top_n) = message /\
  outcome (top_performing sector top_n) = message /\
  outcome (top sector "top_etfs" top_n) = message /\
  outcome (top sector "top_mutual_funds" top_n) = message /\
  outcome (top sector "top_companies" top_n) = message /\
  outcome (top sector "top_growth_companies" top_n) = message /\
  outcome (top sector "top_performing_companies" top_n) = message.
Proof.
  intros Hn message.
  destruct (rejected_run sector top_n Hn) as (H1 & H2 & H3 & H4 & H5).
  unfold outcome, get_top; cbn [String.eqb Ascii.eqb Bool.eqb].
  rewrite H1, H2, H3, H4, H5. repeat split.
Qed.
End TopN.

(** C9.  In every top-entity resolver the count check comes before any
    interaction with the provider: for [top_n <= 0] the run consists of
    returning the message, its trace is empty (no sector or industry object
    is built, the industry table is not consulted), and so the outcome is the
    same for every sector, every industry table and every provider, one
    whose requests all fail included. *)
Theorem top_n_checked_before_provider
        (json_dumps json_dumps' : bool -> val -> string)
        (to_json_records to_json_records' : DataFrame -> string)
        (mapping mapping' : string -> option (list string))
        (yf yf' : Provider) (sector sector' : string) (top_n : Z) :
  top_n <= 0 ->
  (trace (get_top_etfs yf sector top_n) = [] /\
   trace (get_top_mutual_funds yf sector top_n) = [] /\
   trace (get_top_companies json_dumps to_json_records yf sector top_n) = [] /\
   trace (get_top_growth_companies json_dumps to_json_records mapping yf sector top_n) = [] /\
   trace (get_top_performing_companies json_dumps to_json_records mapping yf sector top_n) = [])
  /\
  (run (get_top_etfs yf sector top_n) = run (get_top_etfs yf' sector' top_n) /\
   run (get_top_mutual_funds yf sector top_n)
   = run (get_top_mutual_funds yf' sector' top_n) /\
   run (get_top_companies json_dumps to_json_records yf sector top_n)
   = run (get_top_companies json_dumps' to_json_records' yf' sector' top_n) /\
   run (get_top_growth_companies json_dumps to_json_records mapping yf sector top_n)
   = run (get_top_growth_companies json_dumps' to_json_records' mapping' yf' sector' top_n) /\
   run (get_top_performing_companies json_dumps to_json_records mapping yf sector top_n)
   = run (get_top_performing_companies json_dumps' to_json_records' mapping' yf' sector' top_n))
  /\
  outcome (get_top_etfs Demo.down sector top_n) = Ok TOP_N_MESSAGE.
Proof.
  intros Hn.
  destruct (rejected_run json_dumps to_json_records mapping yf sector top_n Hn)
    as (H1 & H2 & H3 & H4 & H5).
  destruct (rejected_run json_dumps' to_json_records' mapping' yf' sector' top_n Hn)
    as (G1 & G2 & G3 & G4 & G5).
  destruct (rejected_run json_dumps to_json_records mapping Demo.down sector top_n Hn)
    as (D1 & _).
  unfold trace, outcome.
  rewrite H1, H2, H3, H4, H5, G1, G2, G3, G4, G5, D1.
  repeat split.
Qed.

(** ** search *)

Lemma search_run json_dumps yf query search_type s :
  Search yf query = Ok s ->
  run (search json_dumps yf query search_type) =
  (Ok (let selector := lower search_type in
       if String.eqb selector "all" then json_dumps false (search_all s)
       else if String.eqb selector "quotes" then json_dumps false (search_quotes s)
       else if String.eqb selector "news" then json_dumps false (search_news s)
       else "Invalid output_type. Use 'all', 'quotes', or 'news'."),
   [ESearch query]).
Proof.
  intros Hs. unfold search. unfold_monad. rewrite Hs. cbn.
  repeat match goal with |- context [String.eqb ?a ?b] => destruct (String.eqb a b) end;
    reflexivity.
Qed.

(** C8.  [search] makes one provider search call and matches the selector
    without regard to case against "all", "quotes" and "news": a recognised
    selector returns the JSON serialization of that sub-result of the call and
    of nothing else; any other selector returns the literal message that
    names the valid choices, as a value and not as an exception. *)
Theorem search_selector_dispatch
        (json_dumps : bool -> val -> string) (yf : Provider)
        (query search_type : string) (s : SearchResult) :
  Search yf query = Ok s ->
  let selector := lower search_type in
  let call := search json_dumps yf query search_type in
  trace call = [ESearch query] /\
  (selector = "all" -> outcome call = Ok (json_dumps false (search_all s))) /\
  (selector = "quotes" -> outcome call = Ok (json_dumps false (search_quotes s))) /\
  (selector = "news" -> outcome call = Ok (json_dumps false (search_news s))) /\
  (selector <> "all" -> selector <> "quotes" -> selector <> "news" ->
   outcome call = Ok "Invalid output_type. Use 'all', 'quotes', or 'news'.") /\
  outcome (search json_dumps yf query "QuOtEs") = Ok (json_dumps false (search_quotes s)) /\
  outcome (search json_dumps yf query "ALL") = Ok (json_dumps false (search_all s)) /\
  outcome (search json_dumps yf query "News") = Ok (json_dumps false (search_news s)).
Proof.
  intros Hs selector call.
  unfold outcome, trace, call.
  rewrite !(search_run json_dumps yf query _ s Hs). cbn [fst snd].
  fold selector.
  split; [reflexivity|].
  split; [intros ->; reflexivity|].
  split; [intros ->; reflexivity|].
  split; [intros ->; reflexivity|].
  split; [|repeat split].
  intros Ha Hq Hn.
  apply String.eqb_neq in Ha, Hq, Hn. rewrite Ha, Hq, Hn. reflexivity.
Qed.

Lemma search_selector_dispatch_witness :
  trace (search Demo.json_dumps Demo.yf "Apple" "quotes") = [ESearch "Apple"] /\
  outcome (search Demo.json_dumps Demo.yf "Apple" "quotes")
  = Ok (Demo.json_dumps false (VList [VStr "AAPL"])).
Proof.
  pose proof (search_selector_dispatch Demo.json_dumps Demo.yf "Apple" "quotes" _
                eq_refl) as H.
  cbv zeta in H. destruct H as (Ht & _ & Hq & _).
  split; [exact Ht | exact (Hq eq_refl)].
Defined.

(** A provider failure during the search call reaches the caller, whatever
    the selector. *)
Lemma search_provider_failure json_dumps yf query search_type e :
  Search yf query = Raise e ->
  run (search json_dumps yf query search_type) = (Raise e, [ESearch query]).
Proof.
  intros Hs. unfold search. unfold_monad. rewrite Hs. reflexivity.
Qed.

(** ** The calendar *)

Module CalendarFacts.
Import Calendar.

Lemma days_before_month_succ (y m : Z) :
  1 <= m ->
  days_before_month y (m + 1) = days_before_month y m + days_in_month y m.
Proof.
  intros Hm. unfold days_before_month.
  replace (Z.to_nat (m + 1 - 1)) with (S (Z.to_nat (m - 1))) by lia.
  rewrite seq_S, map_app, fold_left_app. cbn [map fold_left].
  replace (Z.of_nat (1 + Z.to_nat (m - 1))) with m by lia.
  reflexivity.
Qed.

Lemma days_before_month_december (y : Z) :
  days_before_month y 12 = 334 + (if is_leap y then 1 else 0).
Proof.
  unfold days_before_month, days_in_month.
  destruct (is_leap y); reflexivity.
Qed.

Lemma days_before_month_january (y : Z) : days_before_month y 1 = 0.
Proof. reflexivity. Qed.

Lemma days_before_year_succ (y : Z) :
  days_before_year (y + 1) = days_before_year y + 365 + (if is_leap y then 1 else 0).
Proof.
  unfold days_before_year, is_leap.
  replace (y + 1 - 1) with y by lia.
  destruct (y mod 4 =? 0) eqn:E4; destruct (y mod 100 =? 0) eqn:E100;
    destruct (y mod 400 =? 0) eqn:E400; cbn [negb andb orb];
    rewrite ?Z.eqb_eq, ?Z.eqb_neq in *;
    Z.div_mod_to_equations; lia.
Qed.

Lemma valid_date_bounds (d : datetime) :
  valid_date d = true ->
  1 <= dt_year d <= 9999 /\ 1 <= dt_month d <= 12 /\
  1 <= dt_day d <= days_in_month (dt_year d) (dt_month d).
Proof.
  unfold valid_date, MINYEAR, MAXYEAR. intros H.
  repeat (apply andb_prop in H; destruct H as [H ?]).
  rewrite ?Z.leb_le in *. lia.
Qed.

Lemma days_in_month_december (y : Z) : days_in_month y 12 = 31.
Proof. reflexivity. Qed.

Lemma days_in_month_range (y m : Z) : 28 <= days_in_month y m <= 31.
Proof.
  unfold days_in_month.
  destruct (m =? 2); [destruct (is_leap y); lia|].
  destruct ((m =? 4) || (m =? 6) || (m =? 9) || (m =? 11)); lia.
Qed.

(** What [plus_one_day] yields, by the three cases of the calendar. *)
Lemma plus_one_day_cases (d d' : datetime) :
  plus_one_day d = Ok d' ->
  (dt_day d < days_in_month (dt_year d) (dt_month d) /\
   d' = with_date d (dt_year d) (dt_month d) (dt_day d + 1)) \/
  (days_in_month (dt_year d) (dt_month d) <= dt_day d /\ dt_month d < 12 /\
   d' = with_date d (dt_year d) (dt_month d + 1) 1) \/
  (days_in_month (dt_year d) (dt_month d) <= dt_day d /\ 12 <= dt_month d /\
   dt_year d < MAXYEAR /\ d' = with_date d (dt_year d + 1) 1 1).
Proof.
  unfold plus_one_day. intros H.
  destruct (dt_day d <? _) eqn:Ed.
  { apply Z.ltb_lt in Ed. left. split; [assumption | congruence]. }
  apply Z.ltb_ge in Ed.
  destruct (dt_month d <? 12) eqn:Em.
  { apply Z.ltb_lt in Em. right; left. repeat split; [assumption.. | congruence]. }
  apply Z.ltb_ge in Em.
  destruct (dt_year d <? MAXYEAR) eqn:Ey; [|discriminate].
  apply Z.ltb_lt in Ey. right; right. repeat split; [assumption.. | congruence].
Qed.

(** [d + timedelta(days=1)] is the next day of the calendar: the ordinal
    grows by exactly one, the wall-clock time and the zone stay. *)
Lemma plus_one_day_ordinal (d d' : datetime) :
  valid_date d = true ->
  plus_one_day d = Ok d' ->
  toordinal d' = toordinal d + 1 /\
  dt_hour d' = dt_hour d /\ dt_minute d' = dt_minute d /\
  dt_second d' = dt_second d /\ dt_microsecond d' = dt_microsecond d /\
  dt_utcoffset d' = dt_utcoffset d.
Proof.
  intros Hv Hp. apply valid_date_bounds in Hv. destruct Hv as (Hy & Hm & Hd).
  destruct (plus_one_day_cases d d' Hp)
    as [(Hlt & ->) | [(Hge & Hm12 & ->) | (Hge & Hm12 & Hy9 & ->)]];
    (split; [|repeat split]); unfold toordinal, with_date; cbn [dt_year dt_month dt_day].
  - lia.
  - rewrite days_before_month_succ by lia. lia.
  - assert (Em : dt_month d = 12) by lia. rewrite Em in *.
    rewrite days_in_month_december in *.
    rewrite days_before_year_succ, days_before_month_december,
      days_before_month_january.
    lia.
Qed.

Lemma lex_compare_refl (l : list Z) : lex_compare l l = Eq.
Proof.
  induction l as [|x l IH]; [reflexivity|].
  cbn. rewrite Z.compare_refl. exact IH.
Qed.

(** The day after is later, in the order [<] and [>=] use. *)
Lemma plus_one_day_later (d d' : datetime) :
  plus_one_day d = Ok d' -> cmp d d' = Ok Lt.
Proof.
  intros Hp.
  assert (Hlex : lex_compare (fields d) (fields d') = Lt).
  { destruct (plus_one_day_cases d d' Hp)
      as [(Hlt & ->) | [(Hge & Hm12 & ->) | (Hge & Hm12 & Hy9 & ->)]];
      unfold fields, with_date; cbn [dt_year dt_month dt_day lex_compare].
    - rewrite !Z.compare_refl.
      replace (dt_day d ?= dt_day d + 1) with Lt by (symmetry; apply Z.compare_lt_iff; lia).
      reflexivity.
    - rewrite Z.compare_refl.
      replace (dt_month d ?= dt_month d + 1) with Lt
        by (symmetry; apply Z.compare_lt_iff; lia).
      reflexivity.
    - replace (dt_year d ?= dt_year d + 1) with Lt
        by (symmetry; apply Z.compare_lt_iff; lia).
      reflexivity. }
  assert (Hoff : dt_utcoffset d' = dt_utcoffset d).
  { destruct (plus_one_day_cases d d' Hp)
      as [(_ & ->) | [(_ & _ & ->) | (_ & _ & _ & ->)]]; reflexivity. }
  unfold cmp. rewrite Hoff.
  destruct (dt_utcoffset d) as [o|]; [rewrite Z.eqb_refl|]; rewrite Hlex; reflexivity.
Qed.

(** Only the last day of year 9999 has no next day. *)
Lemma plus_one_day_defined (d : datetime) :
  valid_date d = true ->
  (exists d', plus_one_day d = Ok d') \/
  (dt_year d = 9999 /\ dt_month d = 12 /\ dt_day d = 31).
Proof.
  intros Hv. apply valid_date_bounds in Hv. destruct Hv as (Hy & Hm & Hd).
  unfold plus_one_day, MAXYEAR.
  destruct (dt_day d <? _) eqn:Ed; [left; eauto|].
  destruct (dt_month d <? 12) eqn:Em; [left; eauto|].
  destruct (dt_year d <? 9999) eqn:Ey; [left; eauto|].
  right. apply Z.ltb_ge in Ed, Em, Ey.
  assert (dt_month d = 12) as E12 by lia. rewrite E12 in *.
  rewrite days_in_month_december in *. lia.
Qed.


(** [>=] and [<] are complementary wherever the comparison is defined. *)
Lemma ge_lt_complement (a b : datetime) (r : bool) :
  ge a b = Ok r <-> lt a b = Ok (negb r).
Proof.
  unfold ge, lt. destruct (cmp a b) as [[| |]|e]; destruct r; cbn;
    split; intros H; try reflexivity; try discriminate.
Qed.

End CalendarFacts.

(** ** calculate_profit_loss *)

Section ProfitLoss.
Variable json_dumps : bool -> val -> string.
Variable fromisoformat : string -> result datetime.
Variable yf : Provider.

Local Abbreviation profit_loss := (calculate_profit_loss json_dumps fromisoformat yf).



Lemma not_earlier_run symbol start_date end_date start_dt end_dt :
  fromisoformat start_date = Ok start_dt ->
  fromisoformat end_date = Ok end_dt ->
  Calendar.ge start_dt end_dt = Ok true ->
  run (profit_loss symbol start_date end_date)
  = (Ok (json_dumps true (error_object "start_date must be earlier than end_date")), []).
Proof.
  intros Hs He Hge. unfold calculate_profit_loss. unfold_monad.
  rewrite Hs, He, Hge. reflexivity.
Qed.


Lemma fetch_run symbol start_date end_date start_dt end_dt end_bound :
  fromisoformat start_date = Ok start_dt ->
  fromisoformat end_date = Ok end_dt ->
  Calendar.ge start_dt end_dt = Ok false ->
  Ticker yf symbol = Ok tt ->
  Calendar.plus_one_day end_dt = Ok end_bound ->
  run (profit_loss symbol start_date end_date)
  = (match Ticker_history yf symbol start_dt end_bound "1d" true with
     | Ok [] => Ok (json_dumps true (error_object NO_DATA_MESSAGE))
     | Ok (first_bar :: rest) =>
         Ok (json_dumps true
               (profit_loss_object symbol start_date end_date first_bar
                  (last (first_bar :: rest) first_bar)))
     | Raise e => Raise e
     end,
     [ETicker symbol; ETickerHistory symbol start_dt end_bound "1d" true]).
Proof.
  intros Hs He Hge Ht Hp. unfold calculate_profit_loss. unfold_monad.
  rewrite Hs, He, Hge. cbn. rewrite Ht, Hp. cbn.
  destruct (Ticker_history _ _ _ _ _ _) as [[|b bs]|]; reflexivity.
Qed.

(** Past 9999-12-31 there is no end bound: the [OverflowError] of the date
    arithmetic escapes, after the ticker was built and before any fetch. *)
Lemma end_bound_overflow_run symbol start_date end_date start_dt end_dt e :
  fromisoformat start_date = Ok start_dt ->
  fromisoformat end_date = Ok end_dt ->
  Calendar.ge start_dt end_dt = Ok false ->
  Ticker yf symbol = Ok tt ->
  Calendar.plus_one_day end_dt = Raise e ->
  run (profit_loss symbol start_date end_date) = (Raise e, [ETicker symbol]).
Proof.
  intros Hs He Hge Ht Hp. unfold calculate_profit_loss. unfold_monad.
  rewrite Hs, He, Hge. cbn. rewrite Ht, Hp. reflexivity.
Qed.


(** C5.  With both dates parsed, the start earlier than the end and the
    ticker built, the one request to the provider is for the daily series
    ("1d", rounded) of the symbol from the parsed start to the parsed end
    advanced by exactly one calendar day: the bound has the ordinal of the
    end date plus one, and the same wall-clock time and zone.  The end date
    itself lies strictly before that bound, so a range that excludes its end
    bound still covers the closed range from start to end. *)
Theorem history_request_covers_end_date
        (symbol start_date end_date : string) (start_dt end_dt end_bound : datetime) :
  fromisoformat start_date = Ok start_dt ->
  fromisoformat end_date = Ok end_dt ->
  Calendar.valid_date end_dt = true ->
  Calendar.ge start_dt end_dt = Ok false ->
  Ticker yf symbol = Ok tt ->
  Calendar.plus_one_day end_dt = Ok end_bound ->
  trace (profit_loss symbol start_date end_date)
  = [ETicker symbol; ETickerHistory symbol start_dt end_bound "1d" true] /\
  Calendar.toordinal end_bound = Calendar.toordinal end_dt + 1 /\
  (dt_hour end_bound, dt_minute end_bound, dt_second end_bound,
   dt_microsecond end_bound, dt_utcoffset end_bound)
  = (dt_hour end_dt, dt_minute end_dt, dt_second end_dt,
     dt_microsecond end_dt, dt_utcoffset end_dt) /\
  Calendar.lt start_dt end_dt = Ok true /\
  Calendar.lt end_dt end_bound = Ok true.
Proof.
  intros Hs He Hv Hge Ht Hp.
  split; [|split; [|split; [|split]]].
  - unfold trace. erewrite fetch_run by eassumption. reflexivity.
  - apply (CalendarFacts.plus_one_day_ordinal end_dt end_bound Hv Hp).
  - destruct (CalendarFacts.plus_one_day_ordinal end_dt end_bound Hv Hp)
      as (_ & -> & -> & -> & -> & ->).
    reflexivity.
  - apply (CalendarFacts.ge_lt_complement start_dt end_dt false). exact Hge.
  - unfold Calendar.lt. rewrite (CalendarFacts.plus_one_day_later _ _ Hp). reflexivity.
Qed.

End ProfitLoss.



(** C2.  On a non-empty daily series [calculate_profit_loss] returns the
    JSON object that carries the symbol and the two date strings as given,
    the close of the first bar as start_price, the close of the last bar as
    end_price (the first and last bars by position in the time-ordered series,
    whatever their dates), profit_loss = end_price - start_price and
    percent_change = profit_loss / start_price * 100 when start_price is not
    equal to zero, null when it is (profit_loss is a number in both cases). *)
Theorem profit_loss_of_series
        (json_dumps : bool -> val -> string)
        (fromisoformat : string -> result datetime) (yf : Provider)
        (symbol start_date end_date : string)
        (start_dt end_dt end_bound : datetime) (first_bar : Bar) (rest : list Bar) :
  fromisoformat start_date = Ok start_dt ->
  fromisoformat end_date = Ok end_dt ->
  Calendar.ge start_dt end_dt = Ok false ->
  Ticker yf symbol = Ok tt ->
  Calendar.plus_one_day end_dt = Ok end_bound ->
  Ticker_history yf symbol start_dt end_bound "1d" true = Ok (first_bar :: rest) ->
  exists start_price end_price profit_loss percent_change,
    outcome (calculate_profit_loss json_dumps fromisoformat yf symbol start_date end_date)
    = Ok (json_dumps true
            (VDict [(KStr "symbol", VStr symbol);
                    (KStr "start_date", VStr start_date);
                    (KStr "end_date", VStr end_date);
                    (KStr "start_price", VFloat start_price);
                    (KStr "end_price", VFloat end_price);
                    (KStr "profit_loss", VFloat profit_loss);
                    (KStr "percent_change", percent_change)])) /\
    start_price = Close first_bar /\
    end_price = Close (last rest first_bar) /\
    profit_loss = PrimFloat.sub end_price start_price /\
    (PrimFloat.eqb start_price 0 = false ->
     percent_change
     = VFloat (PrimFloat.mul (PrimFloat.div profit_loss start_price) 100)) /\
    (PrimFloat.eqb start_price 0 = true -> percent_change = VNone).
Proof.
  intros Hs He Hge Ht Hp Hh.
  unfold outcome.
  rewrite (fetch_run json_dumps fromisoformat yf symbol _ _ _ _ _ Hs He Hge Ht Hp), Hh.
  cbn [fst]. unfold profit_loss_object.
  assert (Hlast : last (first_bar :: rest) first_bar = last rest first_bar).
  { destruct rest; reflexivity. }
  rewrite Hlast.
  do 4 eexists. split; [reflexivity|].
  split; [reflexivity|]. split; [reflexivity|]. split; [reflexivity|].
  split; intros E; rewrite E; reflexivity.
Qed.

Lemma profit_loss_of_series_witness :
  exists percent_change,
    outcome (calculate_profit_loss Demo.json_dumps Ref.fromisoformat Demo.yf "ACME"
               "2024-01-02" "2024-01-05")
    = Ok (Demo.json_dumps true
            (VDict [(KStr "symbol", VStr "ACME");
                    (KStr "start_date", VStr "2024-01-02");
                    (KStr "end_date", VStr "2024-01-05");
                    (KStr "start_price", VFloat 10);
                    (KStr "end_price", VFloat 12);
                    (KStr "profit_loss", VFloat 2);
                    (KStr "percent_change", percent_change)])) /\
    percent_change = VFloat 20.
Proof.
  destruct (profit_loss_of_series Demo.json_dumps Ref.fromisoformat Demo.yf
              "ACME" "2024-01-02" "2024-01-05" _ _ _ (Demo.bar 10)
              [Demo.bar 10; Demo.bar 12]
              eq_refl eq_refl eq_refl eq_refl eq_refl eq_refl)
    as (sp & ep & pl & pc & Hout & -> & -> & -> & Hnz & _).
  exists pc. split; [exact Hout | exact (Hnz eq_refl)].
Defined.

(** A series that opens at a zero close: profit_loss stays a number,
    percent_change is null. *)
Example zero_start_price :
  outcome (calculate_profit_loss Demo.json_dumps Ref.fromisoformat Demo.yf "ZERO"
             "2024-01-02" "2024-01-05")
  = Ok (Demo.json_dumps true
          (VDict [(KStr "symbol", VStr "ZERO");
                  (KStr "start_date", VStr "2024-01-02");
                  (KStr "end_date", VStr "2024-01-05");
                  (KStr "start_price", VFloat 0);
                  (KStr "end_price", VFloat 5);
                  (KStr "profit_loss", VFloat 5);
                  (KStr "percent_change", VNone)])).
Proof. reflexivity. Qed.


Lemma history_request_covers_end_date_witness :
  trace (calculate_profit_loss Demo.json_dumps Ref.fromisoformat Demo.yf "ACME"
           "2024-02-27" "2024-02-29")
  = [ETicker "ACME";
     ETickerHistory "ACME" (mk_datetime 2024 2 27 0 0 0 0 None)
                    (mk_datetime 2024 3 1 0 0 0 0 None) "1d" true].
Proof.
  apply (history_request_covers_end_date Demo.json_dumps Ref.fromisoformat Demo.yf
           "ACME" "2024-02-27" "2024-02-29" _ _ (mk_datetime 2024 3 1 0 0 0 0 None)
           eq_refl eq_refl eq_refl eq_refl eq_refl eq_refl).
Defined.

(** ** Truncation to the first N entities *)

Section Truncation.
Variable json_dumps : bool -> val -> string.
Variable to_json_records : DataFrame -> string.
Variable SECTOR_INDUSTY_MAPPING : string -> option (list string).
Variable yf : Provider.

Lemma get_top_etfs_run sector top_n items :
  1 <= top_n ->
  Sector yf sector = Ok tt ->
  Sector_top_etfs yf sector = Ok items ->
  run (get_top_etfs yf sector top_n)
  = (Ok (join LF (map entity_line (firstn (Z.to_nat top_n) items))),
     [ESector sector; ESectorTopEtfs sector]).
Proof.
  intros Hn Hs Hi. unfold get_top_etfs.
  replace (top_n <? 1) with false by (symmetry; apply Z.ltb_ge; lia).
  unfold_monad. cbn. rewrite Hs, Hi.
  rewrite slice_to_firstn by lia. rewrite firstn_map. reflexivity.
Qed.

(** The fund resolver checks [top_n] and then does not use it. *)
Lemma get_top_mutual_funds_run sector top_n items :
  1 <= top_n ->
  Sector yf sector = Ok tt ->
  Sector_top_mutual_funds yf sector = Ok items ->
  run (get_top_mutual_funds yf sector top_n)
  = (Ok (join LF (map entity_line items)),
     [ESector sector; ESectorTopMutualFunds sector]).
Proof.
  intros Hn Hs Hi. unfold get_top_mutual_funds.
  replace (top_n <? 1) with false by (symmetry; apply Z.ltb_ge; lia).
  unfold_monad. cbn. rewrite Hs, Hi. reflexivity.
Qed.

Lemma get_top_companies_run sector top_n df :
  1 <= top_n ->
  Sector yf sector = Ok tt ->
  Sector_top_companies yf sector = Ok (Some df) ->
  run (get_top_companies json_dumps to_json_records yf sector top_n)
  = (Ok (to_json_records (firstn (Z.to_nat top_n) df)),
     [ESector sector; ESectorTopCompanies sector]).
Proof.
  intros Hn Hs Hi. unfold get_top_companies.
  replace (top_n <? 1) with false by (symmetry; apply Z.ltb_ge; lia).
  unfold_monad. cbn. rewrite Hs, Hi.
  unfold iloc_to. rewrite slice_to_firstn by lia. reflexivity.
Qed.

End Truncation.

(** C1 (failing input).  With two funds on offer and one requested,
    [get_top_mutual_funds] returns both lines: the count is validated and
    then ignored.  [get_top_etfs], on the same listing and the same count,
    returns the first line alone. *)
Theorem mutual_funds_not_truncated :
  let listing := [("VITAX", "Fund A"); ("FSPTX", "Fund B")] in
  let yf := mk_provider (Ticker Demo.yf) (Ticker_info Demo.yf) (Ticker_history Demo.yf)
              (Search Demo.yf) (Sector Demo.yf)
              (fun _ => Ok listing) (fun _ => Ok listing)
              (Sector_top_companies Demo.yf) (Industry Demo.yf)
              (Industry_top_growth_companies Demo.yf)
              (Industry_top_performing_companies Demo.yf) in
  outcome (get_top_mutual_funds yf "technology" 1)
  = Ok (join LF ["VITAX: Fund A"; "FSPTX: Fund B"]) /\
  outcome (get_top_etfs yf "technology" 1) = Ok "VITAX: Fund A".
Proof. split; reflexivity. Qed.

(** ** Provider failures in the resolvers *)

Section IndustryLoop.
Variable to_json_records : DataFrame -> string.
Variable yf : Provider.
Variable table : string -> result (option DataFrame).
Variable ev : string -> event.
Variable data_key : string.
Variable top_n : Z.

Local Abbreviation loop := (industry_loop to_json_records yf table ev data_key top_n).
Local Abbreviation entries' := (entries to_json_records table data_key top_n).

Lemma industry_loop_answered industries :
  Forall (answered yf table) industries ->
  forall results t,
    loop industries results t
    = (Ok (results ++ flat_map entries' industries)%list,
       (t ++ flat_map (industry_events ev) industries)%list).
Proof.
  induction 1 as [|i rest [Hi [r Hr]] _ IH]; intros results t.
  - cbn. rewrite !app_nil_r. reflexivity.
  - cbn [industry_loop flat_map]. unfold_monad. rewrite Hi, Hr.
    unfold entries at 1. rewrite Hr.
    destruct r as [df|]; rewrite IH; cbn [industry_events app];
      rewrite <- !app_assoc; reflexivity.
Qed.

Lemma industry_loop_fails before industry_name after e :
  Forall (answered yf table) before ->
  fails_with yf table industry_name e ->
  forall results t,
  exists last_calls,
    loop (before ++ industry_name :: after)%list results t
    = (Raise e, (t ++ flat_map (industry_events ev) before ++ last_calls)%list) /\
    incl last_calls (industry_events ev industry_name).
Proof.
  intros Hb Hf. induction Hb as [|i rest [Hi [r Hr]] _ IH]; intros results t.
  - cbn [app flat_map industry_loop]. unfold_monad.
    destruct Hf as [Hc | [Hc Ht]].
    + exists [EIndustry industry_name]. rewrite Hc. split; [reflexivity|].
      intros x [<-|[]]. left. reflexivity.
    + exists (industry_events ev industry_name). rewrite Hc, Ht.
      split; [|apply incl_refl].
      cbn [industry_events app]. rewrite <- app_assoc. reflexivity.
  - cbn [app flat_map industry_loop]. unfold_monad. rewrite Hi, Hr.
    destruct r as [df|].
    + destruct (IH (results ++ [industry_entry to_json_records i data_key top_n df])%list
                   ((t ++ [EIndustry i]) ++ [ev i])%list) as (calls & Hrun & Hincl).
      exists calls. split; [|exact Hincl].
      rewrite Hrun. cbn [industry_events app]. rewrite <- !app_assoc. reflexivity.
    + destruct (IH results ((t ++ [EIndustry i]) ++ [ev i])%list)
        as (calls & Hrun & Hincl).
      exists calls. split; [|exact Hincl].
      rewrite Hrun. cbn [industry_events app]. rewrite <- !app_assoc. reflexivity.
Qed.

Lemma entries_without_table industry_name :
  table industry_name = Ok None -> entries' industry_name = [].
Proof. intros H. unfold entries. rewrite H. reflexivity. Qed.

(** A resolver that runs the loop over the listed industries and serializes
    the collected entries keeps the contract of the grouped resolvers. *)
Lemma loop_contract (json_dumps : bool -> val -> string)
      (resolver : list string -> M event string) :
  (forall industries t,
      resolver industries t
      = match loop industries [] t with
        | (Ok results, t') => (Ok (json_dumps false (VList results)), t')
        | (Raise e, t') => (Raise e, t')
        end) ->
  grouped_contract to_json_records yf table ev data_key top_n json_dumps resolver.
Proof.
  intros Hres. unfold grouped_contract, outcome, trace, run.
  split; [|split].
  - intros before industry_name after e Hb Hf. rewrite Hres.
    destruct (industry_loop_fails before industry_name after e Hb Hf [] [])
      as (calls & Hrun & Hincl).
    rewrite Hrun. cbn [fst snd app]. split; [reflexivity|].
    exists calls. split; [reflexivity | exact Hincl].
  - intros industries Ha. rewrite Hres.
    rewrite (industry_loop_answered industries Ha). cbn [fst snd app].
    split; reflexivity.
  - intros before industry_name after Ha Hnone. rewrite !Hres.
    assert (Ha' : Forall (answered yf table) (before ++ after)%list).
    { apply Forall_app in Ha. destruct Ha as [H1 H2]. inversion H2; subst.
      apply Forall_app. split; assumption. }
    rewrite (industry_loop_answered _ Ha), (industry_loop_answered _ Ha').
    cbn [fst app]. rewrite !flat_map_app. cbn [flat_map].
    rewrite (entries_without_table industry_name Hnone). reflexivity.
Qed.

End IndustryLoop.

Section ProviderFailure.
Variable json_dumps : bool -> val -> string.
Variable to_json_records : DataFrame -> string.
Variable yf : Provider.

(** The listing of a sector is all the grouped resolvers take from the
    industry table. *)
Lemma grouped_uses_listing_only mapping sector top_n industries :
  mapping sector = Some industries ->
  run (get_top_growth_companies json_dumps to_json_records mapping yf sector top_n)
  = run (get_top_growth_companies json_dumps to_json_records
           (fun _ => Some industries) yf sector top_n) /\
  run (get_top_performing_companies json_dumps to_json_records mapping yf sector top_n)
  = run (get_top_performing_companies json_dumps to_json_records
           (fun _ => Some industries) yf sector top_n).
Proof.
  intros Hm.
  unfold get_top_growth_companies, get_top_performing_companies, industries_of.
  rewrite Hm. split; reflexivity.
Qed.

Lemma companies_failure_run sector top_n e :
  1 <= top_n ->
  Sector yf sector = Raise e \/
  (Sector yf sector = Ok tt /\ Sector_top_companies yf sector = Raise e) ->
  outcome (get_top_companies json_dumps to_json_records yf sector top_n)
  = Ok (json_dumps true
          (error_object ("Failed to get top companies for sector '"
                         ++ sector ++ "': " ++ exn_text e))).
Proof.
  intros Hn Hf. unfold get_top_companies.
  replace (top_n <? 1) with false by (symmetry; apply Z.ltb_ge; lia).
  unfold_monad. cbn.
  destruct Hf as [Hs | [Hs Ht]]; rewrite Hs; [|rewrite Ht]; reflexivity.
Qed.

(** C4.  For a count of at least one.  [get_top_companies] turns an
    exception of either provider interaction into the JSON object with an
    "error" field (and does the same, with its own message, when the provider
    has no table).  The other resolvers have no such guard: in [get_top_etfs]
    and [get_top_mutual_funds] the exception escapes; in the two grouped
    resolvers an exception from an industry escapes and the industries after
    it are not asked, while an industry that has no table leaves the result
    as if it were not listed. *)
Theorem provider_failure_asymmetry (sector : string) (top_n : Z) :
  1 <= top_n ->
  (forall e,
      Sector yf sector = Raise e \/
      (Sector yf sector = Ok tt /\ Sector_top_companies yf sector = Raise e) ->
      outcome (get_top_companies json_dumps to_json_records yf sector top_n)
      = Ok (json_dumps true
              (VDict [(KStr "error",
                       VStr ("Failed to get top companies for sector '"
                             ++ sector ++ "': " ++ exn_text e))]))) /\
  (Sector yf sector = Ok tt -> Sector_top_companies yf sector = Ok None ->
   outcome (get_top_companies json_dumps to_json_records yf sector top_n)
   = Ok (json_dumps true
           (VDict [(KStr "error",
                    VStr ("No top companies available for " ++ sector ++ " sector."))]))) /\
  (forall e,
      Sector yf sector = Raise e \/
      (Sector yf sector = Ok tt /\ Sector_top_etfs yf sector = Raise e) ->
      outcome (get_top_etfs yf sector top_n) = Raise e) /\
  (forall e,
      Sector yf sector = Raise e \/
      (Sector yf sector = Ok tt /\ Sector_top_mutual_funds yf sector = Raise e) ->
      outcome (get_top_mutual_funds yf sector top_n) = Raise e) /\
  grouped_contract to_json_records yf (Industry_top_growth_companies yf)
    EIndustryTopGrowthCompanies "top_growth_companies" top_n json_dumps
    (fun industries =>
       get_top_growth_companies json_dumps to_json_records
         (fun _ => Some industries) yf sector top_n) /\
  grouped_contract to_json_records yf (Industry_top_performing_companies yf)
    EIndustryTopPerformingCompanies "top_performing_companies" top_n json_dumps
    (fun industries =>
       get_top_performing_companies json_dumps to_json_records
         (fun _ => Some industries) yf sector top_n).
Proof.
  intros Hn.
  assert (E : (top_n <? 1) = false) by (apply Z.ltb_ge; lia).
  split; [|split; [|split; [|split; [|split]]]].
  - intros e Hf. apply companies_failure_run; assumption.
  - intros Hs Ht. unfold get_top_companies. rewrite E. unfold_monad. cbn.
    rewrite Hs, Ht. reflexivity.
  - intros e Hf. unfold get_top_etfs. rewrite E. unfold_monad. cbn.
    destruct Hf as [Hs | [Hs Ht]]; rewrite Hs; [|rewrite Ht]; reflexivity.
  - intros e Hf. unfold get_top_mutual_funds. rewrite E. unfold_monad. cbn.
    destruct Hf as [Hs | [Hs Ht]]; rewrite Hs; [|rewrite Ht]; reflexivity.
  - apply loop_contract. intros industries t.
    unfold get_top_growth_companies, industries_of. rewrite E. unfold_monad.
    destruct (industry_loop _ _ _ _ _ _ industries [] t) as [[results|e] t'];
      reflexivity.
  - apply loop_contract. intros industries t.
    unfold get_top_performing_companies, industries_of. rewrite E. unfold_monad.
    destruct (industry_loop _ _ _ _ _ _ industries [] t) as [[results|e] t'];
      reflexivity.
Qed.

End ProviderFailure.

Lemma provider_failure_asymmetry_witness :
  outcome (get_top_companies Demo.json_dumps Demo.to_json_records Demo.down
             "technology" 3)
  = Ok (Demo.json_dumps true
          (VDict [(KStr "error",
                   VStr "Failed to get top companies for sector 'technology': HTTP Error 404: ")]))
  /\
  outcome (get_top_etfs Demo.down "technology" 3) = Raise Demo.provider_down /\
  (outcome (get_top_growth_companies Demo.json_dumps Demo.to_json_records
              Demo.mapping Demo.yf "technology" 3) = Raise Demo.provider_down /\
   exists last_calls,
     trace (get_top_growth_companies Demo.json_dumps Demo.to_json_records
              Demo.mapping Demo.yf "technology" 3)
     = ([EIndustry "software-infrastructure";
         EIndustryTopGrowthCompanies "software-infrastructure";
         EIndustry "semiconductors";
         EIndustryTopGrowthCompanies "semiconductors"] ++ last_calls)%list /\
     incl last_calls [EIndustry "solar"; EIndustryTopGrowthCompanies "solar"]).
Proof.
  destruct (provider_failure_asymmetry Demo.json_dumps Demo.to_json_records Demo.yf
              "technology" 3 ltac:(lia)) as (_ & _ & _ & _ & (Hgrowth & _) & _).
  destruct (provider_failure_asymmetry Demo.json_dumps Demo.to_json_records Demo.down
              "technology" 3 ltac:(lia)) as (Hcompanies & _ & Hetfs & _).
  split; [apply (Hcompanies Demo.provider_down); left; reflexivity|].
  split; [apply (Hetfs Demo.provider_down); left; reflexivity|].
  apply (Hgrowth ["software-infrastructure"; "semiconductors"] "solar"
                 ["consumer-electronics"] Demo.provider_down).
  - repeat constructor; eexists; reflexivity.
  - right. split; reflexivity.
Defined.

(** ** get_ticker_info *)

Lemma setitem_at (before after : list (key * val)) (name : string) (old new : val) :
  (forall item, In item before -> fst item <> KStr name) ->
  setitem (before ++ (KStr name, old) :: after)%list name new
  = (before ++ (KStr name, new) :: after)%list.
Proof.
  induction before as [|[k v] before IH]; intros Hfresh.
  - cbn. rewrite String.eqb_refl. reflexivity.
  - cbn [app setitem].
    assert (Hk : is_str_key k name = false).
    { destruct k; cbn; try reflexivity.
      apply String.eqb_neq. intros ->.
      apply (Hfresh (KStr name, v)); [left|]; reflexivity. }
    rewrite Hk, IH; [reflexivity|].
    intros item Hin. apply Hfresh. right. exact Hin.
Qed.

Section TickerInfo.
Variable json_dumps : bool -> val -> string.
Variable fromtimestamp : val -> result datetime.
Variable strftime : datetime -> string -> result string.
Variable yf : Provider.

Local Abbreviation entry := (humanize_entry fromtimestamp strftime).

Lemma humanize_entry_key item : fst (entry item) = fst item.
Proof.
  unfold humanize_entry. destruct item as [[| | | |name] v]; cbn [fst snd];
    try reflexivity.
  destruct (datelike name); [|reflexivity].
  destruct (render _ _ v); reflexivity.
Qed.


(** The loop, with [done] already visited: one more item is rewritten where
    it stands, or left. *)
Lemma humanize_items_run (items done : list (key * val)) :
  NoDup (map fst (done ++ items)%list) ->
  forall t, exists t',
    humanize_items fromtimestamp strftime items (map entry done ++ items)%list t
    = (Ok (map entry (done ++ items)%list), t') /\
    filter is_provider_event t' = filter is_provider_event t.
Proof.
  revert done. induction items as [|[k v] items IH]; intros done Hnd t.
  - exists t. cbn. rewrite !app_nil_r. split; reflexivity.
  - assert (Hnext : forall t0,
               exists t',
                 humanize_items fromtimestamp strftime items
                   (map entry (done ++ [(k, v)]) ++ items)%list t0
                 = (Ok (map entry (done ++ (k, v) :: items)%list), t') /\
                 filter is_provider_event t' = filter is_provider_event t0).
    { intros t0.
      replace (done ++ (k, v) :: items)%list with ((done ++ [(k, v)]) ++ items)%list
        by (rewrite <- app_assoc; reflexivity).
      apply IH. rewrite <- app_assoc. exact Hnd. }
    assert (Hsame : entry (k, v) = (k, v) ->
                    (map entry done ++ (k, v) :: items)%list
                    = (map entry (done ++ [(k, v)]) ++ items)%list).
    { intros E. rewrite map_app. cbn [map]. rewrite E, <- app_assoc. reflexivity. }
    cbn [humanize_items]. unfold bind at 1. unfold humanize_item.
    destruct k as [| | | |name];
      try (unfold ret at 1; rewrite Hsame by reflexivity; apply Hnext).
    fold (datelike name).
    assert (Hentry : entry (KStr name, v)
                     = if datelike name
                       then match render fromtimestamp strftime v with
                            | Ok text => (KStr name, VStr text)
                            | Raise _ => (KStr name, v)
                            end
                       else (KStr name, v)) by reflexivity.
    destruct (datelike name) eqn:Hd;
      [|unfold ret at 1; rewrite (Hsame Hentry); apply Hnext].
    unfold try_except, bind, lift, ret, emit.
    unfold render in Hentry.
    assert (Hfresh : forall item, In item (map entry done) -> fst item <> KStr name).
    { intros item Hin Heq. apply in_map_iff in Hin. destruct Hin as (src & <- & Hin).
      rewrite humanize_entry_key in Heq.
      rewrite map_app in Hnd. apply NoDup_remove_2 in Hnd. apply Hnd.
      apply in_or_app. left. cbn [fst]. rewrite <- Heq.
      apply in_map. exact Hin. }
    destruct (fromtimestamp v) as [dt|e] eqn:Hf.
    + destruct (strftime dt "%Y-%m-%d %H:%M:%S") as [text|e] eqn:Hs.
      * rewrite (setitem_at _ _ name v (VStr text) Hfresh).
        replace (map entry done ++ (KStr name, VStr text) :: items)%list
          with (map entry (done ++ [(KStr name, v)]) ++ items)%list.
        { apply Hnext. }
        rewrite map_app, <- app_assoc. cbn [map app].
        rewrite Hentry. reflexivity.
      * cbn [isinstance_Exception]. rewrite (Hsame Hentry).
        destruct (Hnext (t ++ [ELoggerError name v e])%list) as (t' & Hrun & Hcalls).
        exists t'. split; [exact Hrun|].
        rewrite Hcalls, filter_app. cbn. apply app_nil_r.
    + cbn [isinstance_Exception]. rewrite (Hsame Hentry).
      destruct (Hnext (t ++ [ELoggerError name v e])%list) as (t' & Hrun & Hcalls).
      exists t'. split; [exact Hrun|].
      rewrite Hcalls, filter_app. cbn. apply app_nil_r.
Qed.


End TickerInfo.



(** The sample record in UTC: the two date-like fields that hold epoch
    seconds are rendered, the one that holds text stays (and is logged), the
    integer key and the other names are not looked at. *)
Example humanized_sample :
  run (get_ticker_info Demo.json_dumps Demo.fromtimestamp Ref.strftime Demo.yf "ACME")
  = (Ok (Demo.json_dumps false
           (VDict [(KStr "symbol", VStr "ACME");
                   (KStr "exDividendDate", VStr "2023-11-14 22:13:20");
                   (KInt 7, VInt 1700000000);
                   (KStr "lastFiscalYearEnd", VStr "n/a");
                   (KStr "regularMarketTime", VStr "1970-01-01 00:00:00");
                   (KStr "marketCap", VInt 1700000000)])),
     [ETicker "ACME"; ETickerInfo "ACME";
      ELoggerError "lastFiscalYearEnd" (VStr "n/a")
                   (mk_exn TypeError "'str' object cannot be interpreted as an integer")]).
Proof. vm_compute. reflexivity. Qed.

Lemma top_n_not_positive_message_witness :
  outcome (get_top_etfs Demo.yf "technology" 0) = Ok "top_n must be greater than 0" /\
  outcome (get_top Demo.json_dumps Demo.to_json_records Demo.mapping Demo.yf
             "technology" "top_growth_companies" 0)
  = Ok "top_n must be greater than 0".
Proof.
  pose proof (top_n_not_positive_message Demo.json_dumps Demo.to_json_records
                Demo.mapping Demo.yf "technology" 0 ltac:(lia)) as H.
  cbv zeta in H. destruct H as (H1 & _ & _ & _ & _ & _ & _ & _ & H9 & _).
  split; [exact H1 | exact H9].
Defined.

Lemma top_n_checked_before_provider_witness :
  trace (get_top_growth_companies Demo.json_dumps Demo.to_json_records Demo.mapping
           Demo.down "technology" (-1)) = [] /\
  run (get_top_companies Demo.json_dumps Demo.to_json_records Demo.yf "technology" (-1))
  = run (get_top_companies Demo.json_dumps Demo.to_json_records Demo.down "energy" (-1)).
Proof.
  destruct (top_n_checked_before_provider
              Demo.json_dumps Demo.json_dumps Demo.to_json_records Demo.to_json_records
              Demo.mapping Demo.mapping Demo.down Demo.down "technology" "technology"
              (-1) ltac:(lia)) as ((_ & _ & _ & Ht & _) & _ & _).
  destruct (top_n_checked_before_provider
              Demo.json_dumps Demo.json_dumps Demo.to_json_records Demo.to_json_records
              Demo.mapping Demo.mapping Demo.yf Demo.down "technology" "energy"
              (-1) ltac:(lia)) as (_ & (_ & _ & Hr & _) & _).
  split; [exact Ht | exact Hr].
Defined.

(** X1.  For a count of at least one, [get_top_etfs] and [get_top_companies]
    (when the provider answers) return the first [top_n] entities in the
    provider's order: exactly [top_n] of them when more are on offer, all of
    them otherwise. *)
Theorem first_n_in_provider_order
        (json_dumps : bool -> val -> string) (to_json_records : DataFrame -> string)
        (yf : Provider) (sector : string) (top_n : Z) :
  1 <= top_n ->
  Sector yf sector = Ok tt ->
  (forall items,
      Sector_top_etfs yf sector = Ok items ->
      exists shown rest,
        outcome (get_top_etfs yf sector top_n) = Ok (join LF (map entity_line shown)) /\
        items = (shown ++ rest)%list /\
        (top_n < Z.of_nat (List.length items) -> Z.of_nat (List.length shown) = top_n) /\
        (Z.of_nat (List.length items) <= top_n -> shown = items)) /\
  (forall df,
      Sector_top_companies yf sector = Ok (Some df) ->
      exists shown rest,
        outcome (get_top_companies json_dumps to_json_records yf sector top_n)
        = Ok (to_json_records shown) /\
        df = (shown ++ rest)%list /\
        (top_n < Z.of_nat (List.length df) -> Z.of_nat (List.length shown) = top_n) /\
        (Z.of_nat (List.length df) <= top_n -> shown = df)).
Proof.
  intros Hn Hs. split.
  - intros items Hi.
    exists (firstn (Z.to_nat top_n) items), (skipn (Z.to_nat top_n) items).
    unfold outcome. rewrite (get_top_etfs_run yf sector top_n items Hn Hs Hi).
    split; [reflexivity|]. split; [symmetry; apply firstn_skipn|].
    split; intros H.
    + rewrite length_firstn. lia.
    + apply firstn_all2. lia.
  - intros df Hi.
    exists (firstn (Z.to_nat top_n) df), (skipn (Z.to_nat top_n) df).
    unfold outcome.
    rewrite (get_top_companies_run json_dumps to_json_records yf sector top_n df Hn Hs Hi).
    split; [reflexivity|]. split; [symmetry; apply firstn_skipn|].
    split; intros H.
    + rewrite length_firstn. lia.
    + apply firstn_all2. lia.
Qed.

Lemma first_n_in_provider_order_witness :
  exists shown rest,
    outcome (get_top_etfs Demo.yf "technology" 2) = Ok (join LF (map entity_line shown)) /\
    Demo.etfs = (shown ++ rest)%list /\
    (2 < Z.of_nat (List.length Demo.etfs) -> Z.of_nat (List.length shown) = 2) /\
    (Z.of_nat (List.length Demo.etfs) <= 2 -> shown = Demo.etfs).
Proof.
  apply (proj1 (first_n_in_provider_order Demo.json_dumps Demo.to_json_records Demo.yf
                  "technology" 2 ltac:(lia) eq_refl) Demo.etfs eq_refl).
Defined.

(* ================================================================== *)
(** * Further properties of the handlers                                *)
(* ================================================================== *)

(** ** The dispatcher *)

(** X2.  [get_top] compares [top_type] exactly (case matters) with the five
    known names.  Any other value returns "Invalid top_type" without touching
    the provider and without looking at the count, so a non-positive count
    is not reported for it; a known name runs the resolver of that name and
    nothing else. *)
Theorem get_top_dispatch
        (json_dumps : bool -> val -> string) (to_json_records : DataFrame -> string)
        (mapping : string -> option (list string)) (yf : Provider)
        (sector : string) (top_n : Z) :
  let top := get_top json_dumps to_json_records mapping yf sector in
  (forall top_type,
      ~ In top_type TOP_TYPES -> run (top top_type top_n) = (Ok "Invalid top_type", [])) /\
  run (top "TOP_ETFS" top_n) = (Ok "Invalid top_type", []) /\
  top "top_etfs" top_n = get_top_etfs yf sector top_n /\
  top "top_mutual_funds" top_n = get_top_mutual_funds yf sector top_n /\
  top "top_companies" top_n = get_top_companies json_dumps to_json_records yf sector top_n /\
  top "top_growth_companies" top_n
  = get_top_growth_companies json_dumps to_json_records mapping yf sector top_n /\
  top "top_performing_companies" top_n
  = get_top_performing_companies json_dumps to_json_records mapping yf sector top_n.
Proof.
  intros top. split; [|repeat split].
  intros top_type Hnot. unfold top, get_top.
  assert (Hneq : forall name, In name TOP_TYPES -> String.eqb top_type name = false).
  { intros name Hin. apply String.eqb_neq. intros ->. exact (Hnot Hin). }
  rewrite !Hneq by (cbn; tauto). reflexivity.
Qed.

Lemma get_top_dispatch_witness :
  run (get_top Demo.json_dumps Demo.to_json_records Demo.mapping Demo.down
         "technology" "top_funds" 0) = (Ok "Invalid top_type", []).
Proof.
  apply (proj1 (get_top_dispatch Demo.json_dumps Demo.to_json_records Demo.mapping
                  Demo.down "technology" 0) "top_funds").
  cbn. intuition discriminate.
Defined.

(** ** Resolvers and missing data *)

(** X3.  For a count of at least one and a sector that the industry table
    does not list, both grouped resolvers raise the [KeyError] of the table
    lookup; no industry object has been built by then. *)
Theorem grouped_unknown_sector
        (json_dumps : bool -> val -> string) (to_json_records : DataFrame -> string)
        (mapping : string -> option (list string)) (yf : Provider)
        (sector : string) (top_n : Z) :
  1 <= top_n ->
  mapping sector = None ->
  exists e,
    exn_cls e = KeyError /\
    run (get_top_growth_companies json_dumps to_json_records mapping yf sector top_n)
    = (Raise e, []) /\
    run (get_top_performing_companies json_dumps to_json_records mapping yf sector top_n)
    = (Raise e, []).
Proof.
  intros Hn Hm. exists (mk_exn KeyError ("'" ++ sector ++ "'")).
  unfold get_top_growth_companies, get_top_performing_companies, industries_of.
  replace (top_n <? 1) with false by (symmetry; apply Z.ltb_ge; lia).
  rewrite Hm. repeat split.
Qed.

Lemma grouped_unknown_sector_witness :
  exists e,
    exn_cls e = KeyError /\
    run (get_top_growth_companies Demo.json_dumps Demo.to_json_records Demo.mapping
           Demo.yf "energy" 5) = (Raise e, []) /\
    run (get_top_performing_companies Demo.json_dumps Demo.to_json_records Demo.mapping
           Demo.yf "energy" 5) = (Raise e, []).
Proof.
  apply (grouped_unknown_sector Demo.json_dumps Demo.to_json_records Demo.mapping
           Demo.yf "energy" 5 ltac:(lia) eq_refl).
Defined.

(** X4.  [get_top_companies] never lets an exception escape: whatever the
    provider does and whatever the count, the call returns a string. *)
Theorem get_top_companies_never_raises
        (json_dumps : bool -> val -> string) (to_json_records : DataFrame -> string)
        (yf : Provider) (sector : string) (top_n : Z) :
  exists text,
    outcome (get_top_companies json_dumps to_json_records yf sector top_n) = Ok text.
Proof.
  unfold get_top_companies.
  destruct (top_n <? 1); [eexists; reflexivity|].
  unfold_monad. cbn.
  destruct (Sector yf sector); [|eexists; reflexivity].
  destruct (Sector_top_companies yf sector) as [[df|]|e]; eexists; reflexivity.
Qed.

(** ** search *)

(** X5.  [search] asks the provider exactly once, before it looks at the
    selector: the trace is that one call for every selector and every
    provider behaviour, and the call raises exactly when the provider's
    search raises, an unrecognised selector included. *)
Theorem search_single_call
        (json_dumps : bool -> val -> string) (yf : Provider)
        (query search_type : string) :
  trace (search json_dumps yf query search_type) = [ESearch query] /\
  (forall e,
      outcome (search json_dumps yf query search_type) = Raise e
      <-> Search yf query = Raise e).
Proof.
  destruct (Search yf query) as [s|e0] eqn:Hs.
  - unfold outcome, trace. rewrite (search_run json_dumps yf query search_type s Hs).
    cbn [fst snd]. split; [reflexivity|].
    intros e. split; intros H; discriminate.
  - unfold outcome, trace.
    rewrite (search_provider_failure json_dumps yf query search_type e0 Hs).
    cbn [fst snd]. split; [reflexivity|].
    intros e. split; intros H; injection H as ->; reflexivity.
Qed.

(** ** calculate_profit_loss: errors and edges *)

Section ProfitLossEdges.
Variable json_dumps : bool -> val -> string.
Variable fromisoformat : string -> result datetime.
Variable yf : Provider.
Variables symbol start_date end_date : string.

Local Abbreviation call := (calculate_profit_loss json_dumps fromisoformat yf
                              symbol start_date end_date).

(** X6.  When the range is valid and the provider's daily series for it is
    empty, the handler returns the JSON error object with the guidance
    message, after the single history request. *)
Theorem empty_series_reported (start_dt end_dt end_bound : datetime) :
  fromisoformat start_date = Ok start_dt ->
  fromisoformat end_date = Ok end_dt ->
  Calendar.ge start_dt end_dt = Ok false ->
  Ticker yf symbol = Ok tt ->
  Calendar.plus_one_day end_dt = Ok end_bound ->
  Ticker_history yf symbol start_dt end_bound "1d" true = Ok [] ->
  run call
  = (Ok (json_dumps true
           (VDict [(KStr "error",
                    VStr ("No historical data available for the given symbol and date range. "
                          ++ "Please verify the symbol and that the dates fall on trading days."))])),
     [ETicker symbol; ETickerHistory symbol start_dt end_bound "1d" true]).
Proof.
  intros Hs He Hge Ht Hp Hh.
  rewrite (fetch_run json_dumps fromisoformat yf symbol _ _ _ _ _ Hs He Hge Ht Hp), Hh.
  reflexivity.
Qed.

(** X7.  The [try] of the handler covers the parsing only.  Once the range
    is valid, an exception of the provider escapes as it is, a [ValueError]
    included: it is not turned into the "Invalid date format" error. *)
Theorem provider_exception_escapes (start_dt end_dt : datetime) (e : exn) :
  fromisoformat start_date = Ok start_dt ->
  fromisoformat end_date = Ok end_dt ->
  Calendar.ge start_dt end_dt = Ok false ->
  (Ticker yf symbol = Raise e -> run call = (Raise e, [ETicker symbol])) /\
  (forall end_bound,
      Ticker yf symbol = Ok tt ->
      Calendar.plus_one_day end_dt = Ok end_bound ->
      Ticker_history yf symbol start_dt end_bound "1d" true = Raise e ->
      run call
      = (Raise e, [ETicker symbol; ETickerHistory symbol start_dt end_bound "1d" true])).
Proof.
  intros Hs He Hge. split.
  - intros Ht. unfold calculate_profit_loss. unfold_monad.
    rewrite Hs, He, Hge. cbn. rewrite Ht. reflexivity.
  - intros end_bound Ht Hp Hh.
    rewrite (fetch_run json_dumps fromisoformat yf symbol _ _ _ _ _ Hs He Hge Ht Hp), Hh.
    reflexivity.
Qed.

(** X8.  Only a [ValueError] of the parser is reported as a format error.
    Any other exception of the parser escapes, and so does the [TypeError]
    of comparing a naive start with an aware end (or an aware start with a
    naive end); in each case the provider has not been touched. *)
Theorem validation_exceptions_escape :
  (forall exc,
      isinstance_ValueError exc = false ->
      fromisoformat start_date = Raise exc \/
      ((exists start_dt, fromisoformat start_date = Ok start_dt) /\
       fromisoformat end_date = Raise exc) ->
      run call = (Raise exc, [])) /\
  (forall start_dt end_dt,
      fromisoformat start_date = Ok start_dt ->
      fromisoformat end_date = Ok end_dt ->
      (dt_utcoffset start_dt = None <-> dt_utcoffset end_dt <> None) ->
      exists e, exn_cls e = TypeError /\ run call = (Raise e, [])).
Proof.
  split.
  - intros exc Hc [Hs | [[start_dt Hs] He]];
      unfold calculate_profit_loss; unfold_monad; rewrite Hs; [|rewrite He];
      rewrite Hc; reflexivity.
  - intros start_dt end_dt Hs He Hmixed.
    exists (mk_exn TypeError "can't compare offset-naive and offset-aware datetimes").
    split; [reflexivity|].
    unfold calculate_profit_loss. unfold_monad. rewrite Hs, He.
    unfold Calendar.ge, Calendar.cmp.
    destruct (dt_utcoffset start_dt) as [oa|], (dt_utcoffset end_dt) as [ob|];
      try reflexivity; exfalso.
    + destruct Hmixed as [_ H]. assert (Some oa = None) by (apply H; discriminate).
      discriminate.
    + destruct Hmixed as [H _]. apply (H eq_refl). reflexivity.
Qed.

(** X9.  An end date of 9999-12-31 has no next day: with a valid range the
    handler builds the ticker and then raises [OverflowError]; no history is
    requested. *)
Theorem last_day_overflows (start_dt end_dt : datetime) :
  fromisoformat start_date = Ok start_dt ->
  fromisoformat end_date = Ok end_dt ->
  Calendar.ge start_dt end_dt = Ok false ->
  Ticker yf symbol = Ok tt ->
  (dt_year end_dt, dt_month end_dt, dt_day end_dt) = (9999, 12, 31) ->
  exists e,
    exn_cls e = OverflowError /\ run call = (Raise e, [ETicker symbol]).
Proof.
  intros Hs He Hge Ht Hd. injection Hd as Hy Hm Hdd.
  exists (mk_exn OverflowError "date value out of range"). split; [reflexivity|].
  apply (end_bound_overflow_run json_dumps fromisoformat yf symbol _ _ _ _ _
           Hs He Hge Ht).
  unfold Calendar.plus_one_day. rewrite Hy, Hm, Hdd. reflexivity.
Qed.

(** X10.  A start and an end that parse to the same datetime are rejected
    as a reversed range: the same text given twice never reaches the
    provider, so a range of a single day cannot be asked for by repeating
    its date. *)
Theorem same_datetime_rejected (d : datetime) :
  fromisoformat start_date = Ok d ->
  fromisoformat end_date = Ok d ->
  run call
  = (Ok (json_dumps true
           (VDict [(KStr "error", VStr "start_date must be earlier than end_date")])),
     []).
Proof.
  intros Hs He.
  apply (not_earlier_run json_dumps fromisoformat yf symbol _ _ _ _ Hs He).
  unfold Calendar.ge, Calendar.cmp.
  destruct (dt_utcoffset d) as [o|]; [rewrite Z.eqb_refl|];
    rewrite CalendarFacts.lex_compare_refl; reflexivity.
Qed.

(** X12.  Whatever the inputs and the provider, one invocation builds at
    most one ticker and makes at most one history request, in that order, and
    the request is for the daily series of the symbol with rounding. *)
Theorem at_most_one_request :
  trace call = [] \/
  trace call = [ETicker symbol] \/
  exists start_dt end_bound,
    trace call = [ETicker symbol; ETickerHistory symbol start_dt end_bound "1d" true].
Proof.
  unfold calculate_profit_loss. unfold_monad.
  destruct (fromisoformat start_date) as [start_dt|e1].
  2:{ destruct (isinstance_ValueError e1); left; reflexivity. }
  destruct (fromisoformat end_date) as [end_dt|e2].
  2:{ destruct (isinstance_ValueError e2); left; reflexivity. }
  cbn. destruct (Calendar.ge start_dt end_dt) as [[|]|e3]; try (left; reflexivity).
  cbn. destruct (Ticker yf symbol) as [u|e4]; [|right; left; reflexivity].
  destruct (Calendar.plus_one_day end_dt) as [end_bound|e5]; [|right; left; reflexivity].
  right; right. exists start_dt, end_bound.
  destruct (Ticker_history yf symbol start_dt end_bound "1d" true) as [[|b bs]|e6];
    reflexivity.
Qed.

End ProfitLossEdges.

(** X11.  The result is a function of two closing prices only: two series
    (from any two providers) whose first bars close alike and whose last
    bars close alike give the same output, whatever their lengths, their
    bars in between and their other columns. *)
Theorem only_first_and_last_close_matter
        (json_dumps : bool -> val -> string)
        (fromisoformat : string -> result datetime) (yf yf' : Provider)
        (symbol start_date end_date : string)
        (start_dt end_dt end_bound : datetime)
        (first_bar first_bar' : Bar) (rest rest' : list Bar) :
  fromisoformat start_date = Ok start_dt ->
  fromisoformat end_date = Ok end_dt ->
  Calendar.ge start_dt end_dt = Ok false ->
  Calendar.plus_one_day end_dt = Ok end_bound ->
  Ticker yf symbol = Ok tt -> Ticker yf' symbol = Ok tt ->
  Ticker_history yf symbol start_dt end_bound "1d" true = Ok (first_bar :: rest) ->
  Ticker_history yf' symbol start_dt end_bound "1d" true = Ok (first_bar' :: rest') ->
  Close first_bar = Close first_bar' ->
  Close (last rest first_bar) = Close (last rest' first_bar') ->
  run (calculate_profit_loss json_dumps fromisoformat yf symbol start_date end_date)
  = run (calculate_profit_loss json_dumps fromisoformat yf' symbol start_date end_date).
Proof.
  intros Hs He Hge Hp Ht Ht' Hh Hh' Hfirst Hlast.
  rewrite (fetch_run json_dumps fromisoformat yf symbol _ _ _ _ _ Hs He Hge Ht Hp), Hh.
  rewrite (fetch_run json_dumps fromisoformat yf' symbol _ _ _ _ _ Hs He Hge Ht' Hp), Hh'.
  unfold profit_loss_object.
  replace (last (first_bar :: rest) first_bar) with (last rest first_bar)
    by (destruct rest; reflexivity).
  replace (last (first_bar' :: rest') first_bar') with (last rest' first_bar')
    by (destruct rest'; reflexivity).
  rewrite Hfirst, Hlast. reflexivity.
Qed.

Lemma empty_series_reported_witness :
  outcome (calculate_profit_loss Demo.json_dumps Ref.fromisoformat Demo.yf "NONE"
             "2024-01-02" "2024-01-05")
  = Ok (Demo.json_dumps true
          (VDict [(KStr "error",
                   VStr ("No historical data available for the given symbol and date range. "
                         ++ "Please verify the symbol and that the dates fall on trading days."))])).
Proof.
  unfold outcome.
  rewrite (empty_series_reported Demo.json_dumps Ref.fromisoformat Demo.yf "NONE"
             "2024-01-02" "2024-01-05" _ _ _ eq_refl eq_refl eq_refl eq_refl eq_refl
             eq_refl).
  reflexivity.
Defined.

Lemma provider_exception_escapes_witness :
  run (calculate_profit_loss Demo.json_dumps Ref.fromisoformat Demo.down "ACME"
         "2024-01-02" "2024-01-05") = (Raise Demo.provider_down, [ETicker "ACME"]) /\
  outcome (calculate_profit_loss Demo.json_dumps Ref.fromisoformat Samples.history_fails
             "ACME" "2024-01-02" "2024-01-05")
  = Raise (mk_exn ValueError "no timezone found").
Proof.
  split.
  - apply (proj1 (provider_exception_escapes Demo.json_dumps Ref.fromisoformat Demo.down
                    "ACME" "2024-01-02" "2024-01-05" _ _ Demo.provider_down
                    eq_refl eq_refl eq_refl) eq_refl).
  - unfold outcome.
    rewrite (proj2 (provider_exception_escapes Demo.json_dumps Ref.fromisoformat
                      Samples.history_fails "ACME" "2024-01-02" "2024-01-05" _ _
                      (mk_exn ValueError "no timezone found") eq_refl eq_refl eq_refl)
               _ eq_refl eq_refl eq_refl).
    reflexivity.
Defined.

Lemma validation_exceptions_escape_witness :
  run (calculate_profit_loss Demo.json_dumps Samples.not_a_string Demo.yf "ACME"
         "2024-01-02" "2024-01-05")
  = (Raise (mk_exn TypeError "fromisoformat: argument must be str"), []) /\
  exists e,
    exn_cls e = TypeError /\
    run (calculate_profit_loss Demo.json_dumps Samples.with_offset Demo.yf "ACME"
           "2024-01-02" "2024-01-05T00:00+00:00") = (Raise e, []).
Proof.
  split.
  - apply (proj1 (validation_exceptions_escape Demo.json_dumps Samples.not_a_string
                    Demo.yf "ACME" "2024-01-02" "2024-01-05")
             (mk_exn TypeError "fromisoformat: argument must be str") eq_refl).
    left. reflexivity.
  - apply (proj2 (validation_exceptions_escape Demo.json_dumps Samples.with_offset
                    Demo.yf "ACME" "2024-01-02" "2024-01-05T00:00+00:00")
             _ _ eq_refl eq_refl).
    cbn. split; [discriminate | reflexivity].
Defined.

Lemma last_day_overflows_witness :
  exists e,
    exn_cls e = OverflowError /\
    run (calculate_profit_loss Demo.json_dumps Ref.fromisoformat Demo.yf "ACME"
           "2024-01-02" "9999-12-31") = (Raise e, [ETicker "ACME"]).
Proof.
  apply (last_day_overflows Demo.json_dumps Ref.fromisoformat Demo.yf "ACME"
           "2024-01-02" "9999-12-31" _ _ eq_refl eq_refl eq_refl eq_refl eq_refl).
Defined.

Lemma same_datetime_rejected_witness :
  run (calculate_profit_loss Demo.json_dumps Ref.fromisoformat Demo.yf "ACME"
         "2024-01-02" "2024-01-02")
  = (Ok (Demo.json_dumps true
           (VDict [(KStr "error", VStr "start_date must be earlier than end_date")])),
     []).
Proof.
  apply (same_datetime_rejected Demo.json_dumps Ref.fromisoformat Demo.yf "ACME"
           "2024-01-02" "2024-01-02" _ eq_refl eq_refl).
Defined.

Lemma only_first_and_last_close_matter_witness :
  run (calculate_profit_loss Demo.json_dumps Ref.fromisoformat Demo.yf "ACME"
         "2024-01-02" "2024-01-05")
  = run (calculate_profit_loss Demo.json_dumps Ref.fromisoformat Samples.two_bars "ACME"
           "2024-01-02" "2024-01-05").
Proof.
  apply (only_first_and_last_close_matter Demo.json_dumps Ref.fromisoformat
           Demo.yf Samples.two_bars "ACME" "2024-01-02" "2024-01-05" _ _ _
           (Demo.bar 10) (mk_bar 9 11 8 10 5) [Demo.bar 10; Demo.bar 12]
           [mk_bar 11 13 10 12 7]
           eq_refl eq_refl eq_refl eq_refl eq_refl eq_refl eq_refl eq_refl eq_refl
           eq_refl).
Defined.

(** ** get_ticker_info: failures, diagnostics and the name test *)

Section TickerInfoEdges.
Variable json_dumps : bool -> val -> string.
Variable fromtimestamp : val -> result datetime.
Variable strftime : datetime -> string -> result string.
Variable yf : Provider.
Variable symbol : string.

Local Abbreviation call :=
  (get_ticker_info json_dumps fromtimestamp strftime yf symbol).
Local Abbreviation log := (conversion_log fromtimestamp strftime).

(** The loop never raises, and what it logs is decided by the items alone. *)
Lemma humanize_items_total (items : list (key * val)) :
  forall info t, exists info',
    humanize_items fromtimestamp strftime items info t
    = (Ok info', (t ++ flat_map log items)%list).
Proof.
  induction items as [|[k v] items IH]; intros info t.
  - exists info. cbn. rewrite app_nil_r. reflexivity.
  - cbn [humanize_items flat_map]. unfold bind at 1. unfold humanize_item.
    unfold conversion_log at 1. cbn [fst snd].
    destruct k as [| | | |name];
      try (unfold ret at 1; cbn [app]; apply IH).
    fold (datelike name). destruct (datelike name);
      [|unfold ret at 1; cbn [app]; apply IH].
    unfold try_except, bind, lift, ret, emit, render.
    destruct (fromtimestamp v) as [dt|e].
    + destruct (strftime dt "%Y-%m-%d %H:%M:%S") as [text|e].
      * cbn [app]. apply IH.
      * cbn [isinstance_Exception].
        destruct (IH info (t ++ [ELoggerError name v e])%list) as (info' & Hrun).
        exists info'. rewrite Hrun, <- app_assoc. reflexivity.
    + cbn [isinstance_Exception].
      destruct (IH info (t ++ [ELoggerError name v e])%list) as (info' & Hrun).
      exists info'. rewrite Hrun, <- app_assoc. reflexivity.
Qed.

Lemma humanize_items_plain (items : list (key * val)) :
  (forall name v, In (KStr name, v) items -> datelike name = false) ->
  forall info t,
    humanize_items fromtimestamp strftime items info t = (Ok info, t).
Proof.
  induction items as [|[k v] items IH]; intros Hplain info t; [reflexivity|].
  cbn [humanize_items]. unfold bind at 1. unfold humanize_item.
  assert (Hrest : forall name v0, In (KStr name, v0) items -> datelike name = false).
  { intros name v0 Hin. apply (Hplain name v0). right. exact Hin. }
  destruct k as [| | | |name]; try (unfold ret at 1; apply IH; exact Hrest).
  fold (datelike name). rewrite (Hplain name v) by (left; reflexivity).
  unfold ret at 1. apply IH. exact Hrest.
Qed.

(** X13.  [get_ticker_info] raises exactly when the provider does, while
    building the ticker or while reading its info, and then with the
    provider's exception: nothing in the timestamp pass can make it fail. *)
Theorem ticker_info_fails_only_with_provider (e : exn) :
  outcome call = Raise e
  <-> Ticker yf symbol = Raise e \/
      (Ticker yf symbol = Ok tt /\ Ticker_info yf symbol = Raise e).
Proof.
  unfold outcome, run, get_ticker_info. unfold bind at 1. unfold emit at 1.
  destruct (Ticker yf symbol) as [[]|e1].
  - unfold bind at 1. unfold emit at 1.
    destruct (Ticker_info yf symbol) as [info|e2].
    + unfold bind, ret.
      destruct (humanize_items_total info info ([] ++ [ETicker symbol]
                                                   ++ [ETickerInfo symbol])%list)
        as (info' & Hrun).
      cbn [app] in Hrun |- *. rewrite Hrun. cbn [fst].
      split; [discriminate|]. intros [H | [_ H]]; discriminate.
    + cbn [fst]. split.
      * intros H. injection H as ->. right. split; reflexivity.
      * intros [H | [_ H]]; [discriminate | injection H as ->; reflexivity].
  - cbn [fst]. split.
    + intros H. injection H as ->. left. reflexivity.
    + intros [H | [H _]]; [injection H as ->; reflexivity | discriminate].
Qed.

(** X14.  After the two provider interactions the trace holds one logged
    error for each entry with a date-like [str] key whose conversion raised,
    in the order of the mapping, with the key, the value and the exception;
    nothing is logged for any other entry. *)
Theorem conversion_failures_logged (info : list (key * val)) :
  Ticker yf symbol = Ok tt ->
  Ticker_info yf symbol = Ok info ->
  trace call = ([ETicker symbol; ETickerInfo symbol] ++ flat_map log info)%list.
Proof.
  intros Ht Hi.
  destruct (humanize_items_total info info [ETicker symbol; ETickerInfo symbol])
    as (info' & Hrun).
  unfold trace, run, get_ticker_info, bind, emit, ret.
  rewrite Ht. cbn [app]. rewrite Hi. cbn [app]. rewrite Hrun. reflexivity.
Qed.

(** X15.  A mapping none of whose [str] keys is date-like is returned as
    the provider gave it, serialized, and nothing is logged. *)
Theorem plain_record_unchanged (info : list (key * val)) :
  Ticker yf symbol = Ok tt ->
  Ticker_info yf symbol = Ok info ->
  (forall name v, In (KStr name, v) info -> datelike name = false) ->
  run call = (Ok (json_dumps false (VDict info)), [ETicker symbol; ETickerInfo symbol]).
Proof.
  intros Ht Hi Hplain.
  unfold run, get_ticker_info, bind, emit, ret.
  rewrite Ht. cbn [app]. rewrite Hi. cbn [app].
  rewrite (humanize_items_plain info Hplain). reflexivity.
Qed.

End TickerInfoEdges.

Lemma conversion_failures_logged_witness :
  trace (get_ticker_info Demo.json_dumps Demo.fromtimestamp Ref.strftime Demo.yf "ACME")
  = [ETicker "ACME"; ETickerInfo "ACME";
     ELoggerError "lastFiscalYearEnd" (VStr "n/a")
                  (mk_exn TypeError "'str' object cannot be interpreted as an integer")].
Proof.
  apply (conversion_failures_logged Demo.json_dumps Demo.fromtimestamp Ref.strftime
           Demo.yf "ACME" Demo.info eq_refl eq_refl).
Defined.

Lemma plain_record_unchanged_witness :
  run (get_ticker_info Demo.json_dumps Demo.fromtimestamp Ref.strftime
         Samples.plain "ACME")
  = (Ok (Demo.json_dumps false (VDict Samples.plain_info)),
     [ETicker "ACME"; ETickerInfo "ACME"]).
Proof.
  apply (plain_record_unchanged Demo.json_dumps Demo.fromtimestamp Ref.strftime
           Samples.plain "ACME" Samples.plain_info eq_refl eq_refl).
  intros name v [H | [H | [H | []]]]; try discriminate;
    injection H as <- _; reflexivity.
Defined.

(** ** The name test *)

Lemma substring_whole (s : string) : substring 0 (String.length s) s = s.
Proof. induction s as [|c s IH]; cbn; [reflexivity | rewrite IH; reflexivity]. Qed.

Lemma substring_after (p s : string) (m : nat) :
  substring (String.length p) m (p ++ s) = substring 0 m s.
Proof. induction p as [|c p IH]; cbn; [reflexivity | exact IH]. Qed.

Lemma substring_split (s : string) :
  forall k, (k <= String.length s)%nat ->
            s = substring 0 k s ++ substring k (String.length s - k) s.
Proof.
  induction s as [|c s IH]; intros k Hk.
  - destruct k; reflexivity.
  - destruct k as [|k].
    + cbn [substring String.length Nat.sub append]. rewrite substring_whole. reflexivity.
    + cbn [substring String.length Nat.sub append]. cbn in Hk.
      rewrite <- IH by lia. reflexivity.
Qed.

Lemma append_length (a b : string) :
  String.length (a ++ b) = (String.length a + String.length b)%nat.
Proof. induction a as [|c a IH]; cbn; [reflexivity | rewrite IH; reflexivity]. Qed.

(** [endswith] is the suffix relation. *)
Lemma endswith_iff (s suffix : string) :
  endswith s suffix = true <-> exists p, s = p ++ suffix.
Proof.
  unfold endswith. split.
  - intros H. apply andb_prop in H. destruct H as [Hlen Heq].
    apply Nat.leb_le in Hlen. apply String.eqb_eq in Heq.
    exists (substring 0 (String.length s - String.length suffix) s).
    pose proof (substring_split s (String.length s - String.length suffix)
                  ltac:(lia)) as Hsplit.
    replace (String.length s - (String.length s - String.length suffix))%nat
      with (String.length suffix) in Hsplit by lia.
    rewrite Heq in Hsplit. exact Hsplit.
  - intros [p ->]. rewrite append_length.
    replace (String.length p + String.length suffix - String.length suffix)%nat
      with (String.length p) by lia.
    rewrite substring_after, substring_whole, String.eqb_refl.
    replace (Nat.leb _ _) with true by (symmetry; apply Nat.leb_le; lia).
    reflexivity.
Qed.

Lemma lower_append (a b : string) : lower (a ++ b) = lower a ++ lower b.
Proof. induction a as [|c a IH]; cbn; [reflexivity | rewrite IH; reflexivity]. Qed.

(** The name test is a suffix test on the lowered name: any prefix may come
    before one of the six words, and the ending may be in any letter case. *)
Lemma datelike_is_suffix_test (name : string) :
  (datelike name = true
   <-> exists p suffix, In suffix DATE_SUFFIXES /\ lower name = p ++ suffix) /\
  (forall p ending,
      name = p ++ ending -> In (lower ending) DATE_SUFFIXES -> datelike name = true).
Proof.
  assert (Hiff : datelike name = true
                 <-> exists p suffix, In suffix DATE_SUFFIXES /\ lower name = p ++ suffix).
  { unfold datelike, endswith_any. rewrite existsb_exists. split.
    - intros (suffix & Hin & Hend). apply endswith_iff in Hend.
      destruct Hend as [p Hp]. exists p, suffix. split; assumption.
    - intros (p & suffix & Hin & Hp). exists suffix. split; [exact Hin|].
      apply endswith_iff. exists p. exact Hp. }
  split; [exact Hiff|].
  intros p ending -> Hin. apply Hiff.
  exists (lower p), (lower ending). split; [exact Hin | apply lower_append].
Qed.


(** ** Empty tables and missing tables *)

Lemma slice_to_nil {A} (n : Z) : slice_to n (@nil A) = [].
Proof.
  unfold slice_to. destruct (0 <=? n); cbn [List.length Nat.sub];
    apply firstn_nil.
Qed.

(** X17.  For a count of at least one, an empty answer of the provider is
    not an error.  With no ETF or fund on offer the result is the empty
    string; an empty company table is serialized as it is (the "No top
    companies" error is for a missing table only); in a grouped resolver an
    industry with an empty table still gets its entry, with the
    serialization of no rows, and a sector that lists no industry gives the
    serialization of the empty list without any provider interaction. *)
Theorem empty_answers_are_results
        (json_dumps : bool -> val -> string) (to_json_records : DataFrame -> string)
        (yf : Provider) (sector : string) (top_n : Z) :
  1 <= top_n ->
  (Sector yf sector = Ok tt -> Sector_top_etfs yf sector = Ok [] ->
   outcome (get_top_etfs yf sector top_n) = Ok "") /\
  (Sector yf sector = Ok tt -> Sector_top_mutual_funds yf sector = Ok [] ->
   outcome (get_top_mutual_funds yf sector top_n) = Ok "") /\
  (Sector yf sector = Ok tt -> Sector_top_companies yf sector = Ok (Some []) ->
   outcome (get_top_companies json_dumps to_json_records yf sector top_n)
   = Ok (to_json_records [])) /\
  (forall industry_name,
      Industry yf industry_name = Ok tt ->
      Industry_top_growth_companies yf industry_name = Ok (Some []) ->
      outcome (get_top_growth_companies json_dumps to_json_records
                 (fun _ => Some [industry_name]) yf sector top_n)
      = Ok (json_dumps false
              (VList [VDict [(KStr "industry", VStr industry_name);
                             (KStr "top_growth_companies",
                              VStr (to_json_records []))]]))) /\
  run (get_top_growth_companies json_dumps to_json_records (fun _ => Some []) yf
         sector top_n)
  = (Ok (json_dumps false (VList [])), []) /\
  run (get_top_performing_companies json_dumps to_json_records (fun _ => Some []) yf
         sector top_n)
  = (Ok (json_dumps false (VList [])), []).
Proof.
  intros Hn.
  assert (E : (top_n <? 1) = false) by (apply Z.ltb_ge; lia).
  split; [|split; [|split; [|split; [|split]]]].
  - intros Hs Hi. unfold outcome.
    rewrite (get_top_etfs_run yf sector top_n [] Hn Hs Hi), firstn_nil. reflexivity.
  - intros Hs Hi. unfold outcome.
    rewrite (get_top_mutual_funds_run yf sector top_n [] Hn Hs Hi). reflexivity.
  - intros Hs Hi. unfold outcome.
    rewrite (get_top_companies_run json_dumps to_json_records yf sector top_n []
               Hn Hs Hi), firstn_nil.
    reflexivity.
  - intros industry_name Hi Ht.
    unfold get_top_growth_companies, industries_of. rewrite E.
    unfold_monad. cbn. rewrite Hi, Ht. cbn.
    unfold industry_entry, iloc_to. rewrite slice_to_nil. reflexivity.
  - unfold get_top_growth_companies. rewrite E. reflexivity.
  - unfold get_top_performing_companies. rewrite E. reflexivity.
Qed.

Lemma empty_answers_are_results_witness :
  outcome (get_top_etfs Samples.nothing_listed "technology" 3) = Ok "" /\
  outcome (get_top_companies Demo.json_dumps Demo.to_json_records
             Samples.nothing_listed "technology" 3)
  = Ok (Demo.to_json_records []) /\
  outcome (get_top_growth_companies Demo.json_dumps Demo.to_json_records
             (fun _ => Some ["solar"]) Samples.nothing_listed "technology" 3)
  = Ok (Demo.json_dumps false
          (VList [VDict [(KStr "industry", VStr "solar");
                         (KStr "top_growth_companies",
                          VStr (Demo.to_json_records []))]])).
Proof.
  destruct (empty_answers_are_results Demo.json_dumps Demo.to_json_records
              Samples.nothing_listed "technology" 3 ltac:(lia))
    as (Hetfs & _ & Hcompanies & Hgrowth & _).
  split; [exact (Hetfs eq_refl eq_refl)|].
  split; [exact (Hcompanies eq_refl eq_refl)|].
  exact (Hgrowth "solar" eq_refl eq_refl).
Defined.

(** ** The format error and the offending value *)


(** ** Which names are converted *)

Section NameEndings.
Variable json_dumps : bool -> val -> string.
Variable fromtimestamp : val -> result datetime.
Variable strftime : datetime -> string -> result string.
Variable yf : Provider.
Variable symbol : string.

(** X16.  In [get_ticker_info] only the ending of a key, in any letter
    case, decides whether its value is converted.  For a mapping with
    distinct keys: every entry whose [str] key is any text followed by an
    ending that lowers to "date", "start", "end", "timestamp", "time" or
    "quarter", and whose value converts, is returned with the rendering in
    place of the value (a key such as "dividEND" included); every entry whose
    [str] key does not end that way after lowering is returned with its
    value, a valid epoch number included. *)
Theorem name_ending_decides_conversion (info : list (key * val)) :
  Ticker yf symbol = Ok tt ->
  Ticker_info yf symbol = Ok info ->
  NoDup (map fst info) ->
  exists info',
    outcome (get_ticker_info json_dumps fromtimestamp strftime yf symbol)
    = Ok (json_dumps false (VDict info')) /\
    (forall p ending value dt text,
        In (KStr (p ++ ending), value) info ->
        In (lower ending) ["date"; "start"; "end"; "timestamp"; "time"; "quarter"] ->
        fromtimestamp value = Ok dt ->
        strftime dt "%Y-%m-%d %H:%M:%S" = Ok text ->
        In (KStr (p ++ ending), VStr text) info' /\
        (VStr text <> value -> ~ In (KStr (p ++ ending), value) info')) /\
    (forall name value,
        In (KStr name, value) info ->
        (forall p word,
            In word ["date"; "start"; "end"; "timestamp"; "time"; "quarter"] ->
            lower name <> p ++ word) ->
        In (KStr name, value) info').
Proof.
  intros Ht Hi Hnd.
  exists (map (humanize_entry fromtimestamp strftime) info).
  destruct (humanize_items_run fromtimestamp strftime info [] Hnd
              [ETicker symbol; ETickerInfo symbol]) as (t' & Hrun & _).
  cbn [map app] in Hrun.
  split; [|split].
  - unfold outcome, run, get_ticker_info, bind, emit, ret.
    rewrite Ht. cbn [app]. rewrite Hi. cbn [app]. rewrite Hrun. reflexivity.
  - intros p ending value dt text Hin Hend Hf Hs.
    assert (Hentry : humanize_entry fromtimestamp strftime (KStr (p ++ ending), value)
                     = (KStr (p ++ ending), VStr text)).
    { unfold humanize_entry. cbn [fst snd].
      rewrite (proj2 (datelike_is_suffix_test (p ++ ending)) p ending eq_refl Hend).
      unfold render. rewrite Hf, Hs. reflexivity. }
    split.
    + rewrite <- Hentry. apply in_map. exact Hin.
    + intros Hdiff Hin'. apply in_map_iff in Hin'.
      destruct Hin' as ([k v] & Hk & Hsrc).
      assert (Hkey : k = KStr (p ++ ending)).
      { pose proof (humanize_entry_key fromtimestamp strftime (k, v)) as Hkk.
        rewrite Hk in Hkk. cbn [fst] in Hkk. symmetry. exact Hkk. }
      subst k.
      assert (Hv : v = value).
      { clear - Hnd Hin Hsrc. induction info as [|[k0 v0] rest IH]; [contradiction|].
        cbn [map fst] in Hnd. inversion Hnd as [|? ? Hfresh Hnd']; subst.
        destruct Hin as [Hin | Hin], Hsrc as [Hsrc | Hsrc].
        - congruence.
        - injection Hin as -> ->. exfalso. apply Hfresh.
          apply (in_map fst) in Hsrc. exact Hsrc.
        - injection Hsrc as -> ->. exfalso. apply Hfresh.
          apply (in_map fst) in Hin. exact Hin.
        - apply IH; assumption. }
      subst v. rewrite Hentry in Hk. injection Hk as Hk. apply Hdiff. exact Hk.
  - intros name value Hin Hno.
    assert (Hd : datelike name = false).
    { destruct (datelike name) eqn:E; [|reflexivity]. exfalso.
      apply (proj1 (datelike_is_suffix_test name)) in E.
      destruct E as (p & word & Hw & Hp). exact (Hno p word Hw Hp). }
    assert (Hentry : humanize_entry fromtimestamp strftime (KStr name, value)
                     = (KStr name, value)).
    { unfold humanize_entry. cbn [fst snd]. rewrite Hd. reflexivity. }
    rewrite <- Hentry. apply in_map. exact Hin.
Qed.

End NameEndings.

Lemma name_ending_decides_conversion_witness :
  exists info',
    outcome (get_ticker_info Demo.json_dumps Demo.fromtimestamp Ref.strftime
               Samples.endings "ACME")
    = Ok (Demo.json_dumps false (VDict info')) /\
    In (KStr "dividEND", VStr "1970-01-01 00:00:05") info' /\
    ~ In (KStr "dividEND", VInt 5) info' /\
    In (KStr "trending", VInt 5) info'.
Proof.
  destruct (name_ending_decides_conversion Demo.json_dumps Demo.fromtimestamp
              Ref.strftime Samples.endings "ACME" Samples.endings_info
              eq_refl eq_refl)
    as (info' & Hout & Hconverted & Hkept).
  { cbn. repeat (constructor; [cbn; intuition discriminate|]). constructor. }
  exists info'. split; [exact Hout|].
  destruct (Hconverted "divid" "END" (VInt 5)
              (mk_datetime 1970 1 1 0 0 5 0 None) "1970-01-01 00:00:05")
    as (Hin & Hout');
    [left; reflexivity | cbn; tauto | reflexivity | reflexivity |].
  split; [exact Hin|]. split; [apply Hout'; discriminate|].
  apply Hkept; [right; left; reflexivity|].
  intros p word Hword Heq.
  assert (Hend : endswith (lower "trending") word = true)
    by (apply endswith_iff; exists p; exact Heq).
  cbn in Hword.
  destruct Hword as [<- | [<- | [<- | [<- | [<- | [<- | []]]]]]]; discriminate.
Defined.
